(** * Student Fee Manager: the record business rules, verified

    A shallow embedding of the business logic of [student1.py]
    (a PyQt5 front end over pandas data frames) and the proofs of the
    properties its specification states about it.

    What is modelled, and how:
    - a data frame with the strict header is a list of rows, a row being
      a record of its ten cells.  Every frame the program stores carries
      pandas' default index 0..n-1 ([read_excel], [concat] with
      [ignore_index=True], [reset_index(drop=True)]), so the index label
      of a row is its position;
    - a cell of a text column is a Python [str] or the float NaN that
      pandas puts in a blank cell; a cell of a number column is an
      integer, a float (finite or infinite), a [str] (text typed in a
      number column) or NaN;
    - the integer columns that [astype(int)] produces are 64-bit
      (NumPy's default integer): their values lie in the int64 range
      and their difference wraps around;
    - [pd.to_numeric] and [pd.to_datetime] act on a whole column: what a
      cell becomes may depend on the other cells of the column (the
      dtype of the column, the date format inferred from its first
      value), so both are functions of the column;
    - a string stands for a Python [str] through its UTF-8 bytes;
    - the current date of [today_str] is an explicit argument;
    - library code that is not part of the repository (pandas' column
      conversions, Python's [str.lower], [str.strip] and [int], the [re]
      engine behind [str.contains]) is an interface, [Library], with the
      facts about it that the proofs use; theorems hold for every
      implementation of the interface. *)

From Stdlib Require Import ZArith Ascii String.
From stdpp Require Import base tactics option list strings pretty gmap.

Local Open Scope Z_scope.

(** ** Constants of the module *)

Definition STRICT_COLUMNS : list string :=
  [ "Name"; "Mobile Number"; "Year"; "Dept";
    "Fee Amount"; "Fee Paid"; "Balance";
    "Due Date"; "Email"; "Fee Paid On" ].

Definition DATE_FORMAT : string := "%Y-%m-%d".

(** ** Dates and [today_str] *)

Record date := mk_date { year : Z; month : Z; day : Z }.

Fixpoint zeros (n : nat) : string :=
  match n with
  | O => ""
  | S n' => String "0" (zeros n')
  end.

(** Zero padding on the left up to width [w], as [%Y], [%m] and [%d] do. *)
Definition zfill (w : nat) (s : string) : string :=
  zeros (w - String.length s) +:+ s.

(** One directive of a format: [%Y], [%m] and [%d] are the zero-padded
    year, month and day; any other letter is kept as written. *)
Definition directive (d : date) (k : ascii) : string :=
  if bool_decide (k = "Y"%char) then zfill 4 (pretty (year d))
  else if bool_decide (k = "m"%char) then zfill 2 (pretty (month d))
  else if bool_decide (k = "d"%char) then zfill 2 (pretty (day d))
  else String "%" (String k "").

(** [d.strftime(fmt)] *)
Fixpoint strftime (d : date) (fmt : string) : string :=
  match fmt with
  | "" => ""
  | String c rest =>
      if bool_decide (c = "%"%char) then
        match rest with
        | "" => "%"
        | String k rest' => directive d k +:+ strftime d rest'
        end
      else String c (strftime d rest)
  end.

(** [today_str()], with the clock made explicit:
    [date.today().strftime(DATE_FORMAT)]. *)
Definition today_str (today : date) : string := strftime today DATE_FORMAT.

(** ** Numbers *)

(** The range of a 64-bit integer and the wrap-around of its
    arithmetic. *)
Definition int64_min : Z := -9223372036854775808.
Definition int64_max : Z := 9223372036854775807.

Definition in_int64 (z : Z) : Prop := int64_min ≤ z ≤ int64_max.

Definition int64_wrap (z : Z) : Z :=
  (z + 9223372036854775808) mod 18446744073709551616 - 9223372036854775808.

(** Integers up to this magnitude are floats without rounding. *)
Definition exact_float_bound : Z := 9007199254740992.

(** The value of a float that is not NaN: the fraction [n/d], or an
    infinity. *)
Inductive number :=
  | Finite (n : Z) (d : positive)
  | Infinity (negative : bool).

(** The integer part of a finite number, towards zero, as the cast of a
    float to an integer takes it. *)
Definition trunc (x : number) : Z :=
  match x with
  | Finite n d => Z.quot n (Z.pos d)
  | Infinity _ => 0
  end.

Definition is_finite (x : number) : bool :=
  match x with
  | Finite _ _ => true
  | Infinity _ => false
  end.

(** ** Cells, rows and tables *)

Inductive text_cell :=
  | Text (s : string)
  | TextNaN.

Inductive num_cell :=
  | Num (z : Z)
  | NumFloat (x : number)
  | NumText (s : string)
  | NumNaN.

Record row := mk_row {
  Name : text_cell;
  Mobile_Number : text_cell;
  Year : text_cell;
  Dept : text_cell;
  Fee_Amount : num_cell;
  Fee_Paid : num_cell;
  Balance : num_cell;
  Due_Date : text_cell;
  Email : text_cell;
  Fee_Paid_On : text_cell
}.

Abbreviation table := (list row).

Global Instance number_eq_dec : EqDecision number.
Proof. solve_decision. Defined.

Global Instance text_cell_eq_dec : EqDecision text_cell.
Proof. solve_decision. Defined.

Global Instance num_cell_eq_dec : EqDecision num_cell.
Proof. solve_decision. Defined.

Global Instance row_eq_dec : EqDecision row.
Proof. solve_decision. Defined.

(** [df.at[idx, col] = v] and [df[col] = ...] write one cell of a row. *)
Definition set_Fee_Amount (v : num_cell) (r : row) : row :=
  mk_row (Name r) (Mobile_Number r) (Year r) (Dept r) v (Fee_Paid r)
         (Balance r) (Due_Date r) (Email r) (Fee_Paid_On r).

Definition set_Fee_Paid (v : num_cell) (r : row) : row :=
  mk_row (Name r) (Mobile_Number r) (Year r) (Dept r) (Fee_Amount r) v
         (Balance r) (Due_Date r) (Email r) (Fee_Paid_On r).

Definition set_Balance (v : num_cell) (r : row) : row :=
  mk_row (Name r) (Mobile_Number r) (Year r) (Dept r) (Fee_Amount r)
         (Fee_Paid r) v (Due_Date r) (Email r) (Fee_Paid_On r).

Definition set_Due_Date (v : text_cell) (r : row) : row :=
  mk_row (Name r) (Mobile_Number r) (Year r) (Dept r) (Fee_Amount r)
         (Fee_Paid r) (Balance r) v (Email r) (Fee_Paid_On r).

Definition set_Fee_Paid_On (v : text_cell) (r : row) : row :=
  mk_row (Name r) (Mobile_Number r) (Year r) (Dept r) (Fee_Amount r)
         (Fee_Paid r) (Balance r) (Due_Date r) (Email r) v.

(** Python truthiness of a text cell: only the empty string is falsy;
    NaN is a non-zero float, hence truthy. *)
Definition truthy (c : text_cell) : bool :=
  match c with
  | Text "" => false
  | Text _ => true
  | TextNaN => true
  end.

(** What [refresh_table] shows for a cell:
    [display = "" if pd.isna(val) else str(val)]. *)
Definition display_text (c : text_cell) : string :=
  match c with
  | Text s => s
  | TextNaN => ""
  end.

(** A text field is empty when the table shows nothing for it. *)
Definition is_empty (c : text_cell) : bool :=
  bool_decide (display_text c = "").

(** ** Strings *)

(** A string of characters below 128. *)
Definition is_ascii_char (c : ascii) : bool := (N_of_ascii c <? 128)%N.

Fixpoint is_ascii (s : string) : bool :=
  match s with
  | "" => true
  | String c s' => is_ascii_char c && is_ascii s'
  end.

Definition lower_ascii (c : ascii) : ascii :=
  let n := N_of_ascii c in
  if ((65 <=? n) && (n <=? 90))%N then ascii_of_N (n + 32) else c.

(** [str.lower()] on a string of ASCII characters: the letters A to Z
    become a to z. *)
Fixpoint lower (s : string) : string :=
  match s with
  | "" => ""
  | String c s' => String (lower_ascii c) (lower s')
  end.

(** The ASCII characters for which [str.isspace()] holds: tab to
    carriage return, the four separators 28 to 31, and the space. *)
Definition is_space (c : ascii) : bool :=
  let n := N_of_ascii c in
  ((9 <=? n) && (n <=? 13) || (28 <=? n) && (n <=? 32))%N.

Fixpoint lstrip (s : string) : string :=
  match s with
  | "" => ""
  | String c s' => if is_space c then lstrip s' else s
  end.

Fixpoint rstrip (s : string) : string :=
  match s with
  | "" => ""
  | String c s' =>
      match rstrip s' with
      | "" => if is_space c then "" else String c ""
      | t => String c t
      end
  end.

(** [str.strip()] on a string of ASCII characters *)
Definition strip (s : string) : string := rstrip (lstrip s).

Fixpoint is_prefix (p s : string) : bool :=
  match p, s with
  | "", _ => true
  | String _ _, "" => false
  | String a p', String b s' => bool_decide (a = b) && is_prefix p' s'
  end.

(** [p in s] on strings *)
Fixpoint is_substring (p s : string) : bool :=
  is_prefix p s ||
  match s with
  | "" => false
  | String _ s' => is_substring p s'
  end.

(** Characters with a meaning of their own in a regular expression. *)
Definition is_meta (c : ascii) : bool :=
  bool_decide (c ∈ [ "."; "^"; "$"; "*"; "+"; "?"; "{"; "}";
                     "["; "]"; "\"; "|"; "("; ")" ]%char).

Fixpoint plain (pat : string) : bool :=
  match pat with
  | "" => true
  | String c p => negb (is_meta c) && plain p
  end.

Definition dot : ascii := "."%char.
Definition newline : ascii := "010"%char.

(** A pattern of ordinary characters and dots. *)
Fixpoint dotted (pat : string) : bool :=
  match pat with
  | "" => true
  | String c p => (negb (is_meta c) || bool_decide (c = dot)) && dotted p
  end.

(** Such a pattern matches at the start of the text; a dot stands for
    any character but the newline. *)
Fixpoint match_here (pat s : string) : bool :=
  match pat, s with
  | "", _ => true
  | String _ _, "" => false
  | String a p', String b s' =>
      (if bool_decide (a = dot) then negb (bool_decide (b = newline))
       else bool_decide (a = b))
      && match_here p' s'
  end.

Fixpoint dot_search (pat s : string) : bool :=
  match_here pat s ||
  match s with
  | "" => false
  | String _ s' => dot_search pat s'
  end.

(** ** The library interface *)

(** The number a cell of a number column stands for, before the column
    is converted: [None] is NaN (a blank cell, or text that
    [errors='coerce'] turns into NaN); [parse] reads a text. *)
Definition cell_value_with (parse : string → option number) (c : num_cell)
  : option number :=
  match c with
  | Num z => Some (Finite z 1)
  | NumFloat x => Some x
  | NumText s => parse s
  | NumNaN => None
  end.

(** A value that the conversion to integers takes without loss: NaN, or
    a finite number whose integer part is a float without rounding. *)
Definition small_value (v : option number) : Prop :=
  match v with
  | None => True
  | Some (Finite n d) => Z.abs (trunc (Finite n d)) ≤ exact_float_bound
  | Some (Infinity _) => False
  end.

Class Library := {
  (** [pd.to_numeric(errors='coerce')] on one text value; [None] is NaN *)
  to_numeric_text : string → option number;
  (** [pd.to_numeric(col, errors='coerce').fillna(0).astype(int)] on a
      column; [None]: the cast raises *)
  int_column : list num_cell → option (list Z);
  int_column_length : ∀ col zs,
    int_column col = Some zs → length zs = length col;
  int_column_range : ∀ col zs,
    int_column col = Some zs → Forall in_int64 zs;
  (** a column of 64-bit integers is returned as it is *)
  int_column_ints : ∀ zs,
    Forall in_int64 zs → int_column (map Num zs) = Some zs;
  (** NaN is filled with 0 *)
  int_column_missing : ∀ col zs i c,
    int_column col = Some zs → col !! i = Some c →
    cell_value_with to_numeric_text c = None → zs !! i = Some 0;
  (** a finite number is cut to its integer part *)
  int_column_finite : ∀ col zs i c n d,
    int_column col = Some zs → col !! i = Some c →
    cell_value_with to_numeric_text c = Some (Finite n d) →
    Z.abs (trunc (Finite n d)) ≤ exact_float_bound →
    zs !! i = Some (trunc (Finite n d));
  (** an infinite value makes the cast raise *)
  int_column_infinite : ∀ col i c negative,
    col !! i = Some c →
    cell_value_with to_numeric_text c = Some (Infinity negative) →
    int_column col = None;
  (** and nothing else does, on values of ordinary size *)
  int_column_total : ∀ col,
    Forall (λ c, small_value (cell_value_with to_numeric_text c)) col →
    is_Some (int_column col);
  (** [str(x)] for a float *)
  float_str : number → string;
  (** [pd.to_datetime(col, errors='coerce')] on a column: one entry per
      cell, [None] for NaT; the outer [None]: the call raises *)
  to_datetime_column : list text_cell → option (list (option date));
  to_datetime_length : ∀ col parsed,
    to_datetime_column col = Some parsed → length parsed = length col;
  (** a blank cell, NaN or the empty string, is NaT *)
  to_datetime_blank : ∀ col parsed i c,
    to_datetime_column col = Some parsed → col !! i = Some c →
    is_empty c = true → parsed !! i = Some None;
  (** [int(s)]; [None] is [ValueError] *)
  py_int : string → option Z;
  (** [str.lower()] and [str.strip()] *)
  str_lower : string → string;
  str_lower_ascii : ∀ s, is_ascii s = true → str_lower s = lower s;
  str_strip : string → string;
  str_strip_ascii : ∀ s, is_ascii s = true → str_strip s = strip s;
  (** [re.compile(pat)] succeeds *)
  re_valid : string → bool;
  (** [re.search(pat, s) is not None] *)
  re_search : string → string → bool;
  re_search_plain : ∀ pat s, plain pat = true →
    re_valid pat = true ∧ re_search pat s = is_substring pat s;
  re_search_dotted : ∀ pat s, dotted pat = true → is_ascii s = true →
    re_valid pat = true ∧ re_search pat s = dot_search pat s;
  (** the text of the exception that [msg.as_string()] raises when the
      [To] header holds a float *)
  header_error : string
}.

(** ** Business rules *)

Section business_rules.
Context `{Library}.

Definition cell_value (c : num_cell) : option number :=
  cell_value_with to_numeric_text c.

(** [.clip(lower=lo)] *)
Definition clip_lower (lo x : Z) : Z := if x <? lo then lo else x.

(** The value of a cell of a column that was cast with [astype(int)],
    and [int(row[col])] on such a cell.  The other cases do not arise:
    lines 429 to 431 leave integers in the three columns. *)
Definition int_value (c : num_cell) : Z :=
  match c with
  | Num z => z
  | NumFloat _ => 0
  | NumText _ => 0
  | NumNaN => 0
  end.

(** The difference of two 64-bit columns, cell by cell. *)
Definition int64_sub (a b : Z) : Z := int64_wrap (a - b).

(** [df.iterrows()]: the rows with their index labels, from label [i]
    on; the rows are a snapshot taken when the loop starts. *)
Fixpoint iterrows_from (i : nat) (df : table) : list (nat * row) :=
  match df with
  | [] => []
  | r :: df' => (i, r) :: iterrows_from (S i) df'
  end.

Definition iterrows (df : table) : list (nat * row) := iterrows_from 0 df.

(** The body of the loop of lines 432 to 439: [snap] is the row the
    iterator yielded, [r] the row of the frame with the same label. *)
Definition loop_body (today : date) (snap : row) (r : row) : row :=
  let bal := int_value (Balance snap) in
  if bal =? 0 then
    let r1 := if negb (truthy (Fee_Paid_On snap))
              then set_Fee_Paid_On (Text (today_str today)) r
              else r in
    set_Due_Date (Text "") r1
  else
    set_Fee_Paid_On (Text "") r.

(** [_recalculate_business_rules]; [None]: [astype(int)] raised.  Lines
    424 to 428 copy the frame and add or reorder columns so that it has
    the strict header; on a frame that has it already, as all frames of
    the store do, they change nothing.  Lines 429 to 431 rewrite three
    columns, and the loop of lines 432 to 439 writes into the frame
    through [df.at]. *)
Definition _recalculate_business_rules (today : date) (df : table)
  : option table :=
  fee_amount ← int_column (map Fee_Amount df);
  let df1 := zip_with (λ z r, set_Fee_Amount (Num z) r) fee_amount df in
  fee_paid ← int_column (map Fee_Paid df1);
  let df2 := zip_with (λ z r, set_Fee_Paid (Num z) r) fee_paid df1 in
  let df3 := map (λ r, set_Balance
                         (Num (clip_lower 0
                                 (int64_sub (int_value (Fee_Amount r))
                                            (int_value (Fee_Paid r))))) r)
                 df2 in
  Some (foldl (λ acc '(idx, snap), alter (loop_body today snap) idx acc)
              df3 (iterrows df3)).

(** What the passes do to one row, in closed form, once the two fee
    columns have been converted to the integers [fa] and [fp]. *)
Definition finish_row (today : date) (fa fp : Z) (r : row) : row :=
  let bal := clip_lower 0 (int64_sub fa fp) in
  mk_row (Name r) (Mobile_Number r) (Year r) (Dept r)
         (Num fa) (Num fp) (Num bal)
         (if bal =? 0 then Text "" else Due_Date r)
         (Email r)
         (if bal =? 0
          then (if truthy (Fee_Paid_On r) then Fee_Paid_On r
                else Text (today_str today))
          else Text "").

(** The same on a table, given the two converted columns. *)
Fixpoint finish_rows (today : date) (fas fps : list Z) (df : table) : table :=
  match fas, fps, df with
  | fa :: fas', fp :: fps', r :: df' =>
      finish_row today fa fp r :: finish_rows today fas' fps' df'
  | _, _, _ => []
  end.

(** What step 1 makes of one fee cell: 0 of NaN, the integer part of a
    finite number of ordinary size, never anything of an infinity. *)
Definition fee_cell_converted (c : num_cell) (a : Z) : Prop :=
  in_int64 a
  ∧ (cell_value c = None → a = 0)
  ∧ (∀ n d, cell_value c = Some (Finite n d) →
       Z.abs (trunc (Finite n d)) ≤ exact_float_bound →
       a = trunc (Finite n d))
  ∧ (∀ negative, cell_value c ≠ Some (Infinity negative)).

(** [r'] is [r] after recompute: its fees are what step 1 makes of
    the two fee cells of [r], and the rest follows from them. *)
Definition recomputed (today : date) (r r' : row) : Prop :=
  ∃ fa fp, fee_cell_converted (Fee_Amount r) fa
           ∧ fee_cell_converted (Fee_Paid r) fp
           ∧ r' = finish_row today fa fp r.

(** A record whose two fee cells hold 64-bit integers, as every record
    has that recompute or the dialog produced, and what recompute makes
    of such a record. *)
Definition int_fees (r : row) : Prop :=
  ∃ fa fp, Fee_Amount r = Num fa ∧ Fee_Paid r = Num fp
           ∧ in_int64 fa ∧ in_int64 fp.

Definition recompute_row (today : date) (r : row) : row :=
  finish_row today (int_value (Fee_Amount r)) (int_value (Fee_Paid r)) r.

Definition row_stable (r : row) : Prop :=
  int_fees r ∧ ∀ today, recompute_row today r = r.

(** A table is stable when recompute, on any day, leaves it as it is. *)
Definition stable (df : table) : Prop :=
  ∀ today, _recalculate_business_rules today df = Some df.

(** ** The record dialog *)

(** A spin box of the dialog: its value lies between the minimum, 0,
    and the maximum that lines 70 and 76 set. *)
Record QSpinBox := mk_spin {
  spin_value : Z;
  spin_range : Is_true (bool_decide (0 ≤ spin_value ≤ 10000000))
}.

(** The widgets of [StudentDialog]: four text fields, two spin boxes, the
    read-only balance, the date editor, the e-mail field and the
    read-only paid-on field. *)
Record StudentDialog := mk_dialog {
  w_Name : string;
  w_Mobile_Number : string;
  w_Year : string;
  w_Dept : string;
  w_Fee_Amount : QSpinBox;
  w_Fee_Paid : QSpinBox;
  w_Balance : string;
  w_Due_Date : date;
  w_Email : string;
  w_Fee_Paid_On : string
}.

(** [QDate.toString("yyyy-MM-dd")]: the same text as [DATE_FORMAT]
    gives. *)
Definition qdate_toString (d : date) : string := strftime d DATE_FORMAT.

(** [_update_balance_field]: the slot behind the two spin boxes. *)
Definition _update_balance_field (today : date) (w : StudentDialog)
  : StudentDialog :=
  let amt := spin_value (w_Fee_Amount w) in
  let paid := spin_value (w_Fee_Paid w) in
  let bal := Z.max 0 (amt - paid) in
  mk_dialog (w_Name w) (w_Mobile_Number w) (w_Year w) (w_Dept w)
            (w_Fee_Amount w) (w_Fee_Paid w) (pretty bal) (w_Due_Date w)
            (w_Email w)
            (if bal =? 0 then today_str today else "").

(** [get_data]: the record of the dialog. *)
Definition get_data (today : date) (w : StudentDialog) : row :=
  let fee_amount := spin_value (w_Fee_Amount w) in
  let fee_paid := spin_value (w_Fee_Paid w) in
  let balance := fee_amount - fee_paid in
  mk_row (Text (str_strip (w_Name w))) (Text (str_strip (w_Mobile_Number w)))
         (Text (str_strip (w_Year w))) (Text (str_strip (w_Dept w)))
         (Num fee_amount) (Num fee_paid) (Num balance)
         (Text (qdate_toString (w_Due_Date w)))
         (Text (str_strip (w_Email w)))
         (Text (if balance =? 0 then today_str today else "")).

(** ** The record store *)

(** [self.files], [self.selected_name] and [self.current_df_view] *)
Record app := mk_app {
  files : gmap string (string * table);
  selected_name : option string;
  current_df_view : option table
}.

(** How a handler ends: it did its work, it showed a message box and
    returned, it returned at once, or an exception left it. *)
Inductive outcome (A : Type) :=
  | Done (a : A)
  | Dialog (title : string)
  | Silent
  | Raised (exn : string).

Global Arguments Done {A} a.
Global Arguments Dialog {A} title.
Global Arguments Silent {A}.
Global Arguments Raised {A} exn.

(** A handler that recomputes goes on with the table, or is left by the
    exception of the cast. *)
Definition recompute_then {A : Type} (today : date) (df : table)
    (k : table → outcome A) : outcome A :=
  match _recalculate_business_rules today df with
  | Some df' => k df'
  | None => Raised "IntCastingNaNError"
  end.

(** What [pd.read_excel] hands over: the header and the rows under it.
    The rows are only looked at when the header is the strict one. *)
Record frame := mk_frame {
  columns : list string;
  body : table
}.

Fixpoint has_slash (p : string) : bool :=
  match p with
  | "" => false
  | String c p' => bool_decide (c = "/"%char) || has_slash p'
  end.

(** [os.path.basename], POSIX paths *)
Fixpoint basename (p : string) : string :=
  match p with
  | "" => ""
  | String c p' =>
      if has_slash p' then basename p'
      else if bool_decide (c = "/"%char) then p' else p
  end.

(** [create_new_file]: [path] is what the file dialog returned and
    [written] tells whether [df.to_excel] succeeded. *)
Definition create_new_file (path : string) (written : bool)
    (fs : gmap string (string * table))
  : outcome (gmap string (string * table)) :=
  if bool_decide (path = "") then Silent
  else if negb written then Dialog "Error"
  else Done (<[basename path := (path, [])]> fs).

(** [open_file]: [path] is what the file dialog returned (empty on
    cancel) and [read] what [pd.read_excel] gave ([None]: it raised). *)
Definition open_file (today : date) (path : string) (read : option frame)
    (fs : gmap string (string * table))
  : outcome (gmap string (string * table)) :=
  if bool_decide (path = "") then Silent
  else match read with
       | None => Dialog "Error"
       | Some df =>
           if bool_decide (columns df ≠ STRICT_COLUMNS)
           then Dialog "Invalid format"
           else
             recompute_then today (body df) (λ df',
               Done (<[basename path := (path, df')]> fs))
       end.

(** [save_current]: [written] tells whether [df.to_excel] succeeded. *)
Definition save_current (today : date) (written : bool) (st : app)
  : outcome app :=
  match selected_name st with
  | None => Dialog "No file"
  | Some name =>
      match files st !! name with
      | None => Raised "KeyError"
      | Some (path, df) =>
          recompute_then today df (λ df',
            if written
            then Done (mk_app (<[name := (path, df')]> (files st))
                              (selected_name st) (current_df_view st))
            else Dialog "Error")
      end
  end.

(** [on_select_file]: the slot of the file box. *)
Definition on_select_file (name : string) (st : app) : outcome app :=
  if bool_decide (name = "") then Silent
  else match files st !! name with
       | None => Raised "KeyError"
       | Some (path, df) => Done (mk_app (files st) (Some name) (Some df))
       end.

(** [add_row]: [dlg] is the dialog when it was accepted ([None]:
    cancelled); its record is appended. *)
Definition add_row (today : date) (dlg : option StudentDialog) (st : app)
  : outcome app :=
  match selected_name st with
  | None => Dialog "No file"
  | Some name =>
      match dlg with
      | None => Silent
      | Some w =>
          let rec := get_data today w in
          match files st !! name with
          | None => Raised "KeyError"
          | Some (path, df) =>
              recompute_then today (df ++ [rec]) (λ df',
                Done (mk_app (<[name := (path, df')]> (files st))
                             (Some name) (Some df')))
          end
      end
  end.

(** [edit_selected]: [row_idx] is [self.table.currentRow()] and [dlg]
    the dialog when it was accepted ([None]: cancelled).  The record of
    the dialog is written cell by cell over the row with that label, in
    the stored frame itself; [Raised] carries no store, so nothing is
    said about the store when recompute raises after that.  How Qt
    fills the dialog from the existing record is outside the model: the
    handler is given the widgets as the user left them. *)
Definition edit_selected (today : date) (row_idx : Z)
    (dlg : option StudentDialog) (st : app) : outcome app :=
  match selected_name st with
  | None => Dialog "No file"
  | Some name =>
      if row_idx <? 0 then Dialog "Select"
      else match files st !! name with
           | None => Raised "KeyError"
           | Some (path, df) =>
               if Z.of_nat (length df) <=? row_idx then Raised "IndexError"
               else match dlg with
                    | None => Silent
                    | Some w =>
                        let updated := get_data today w in
                        let df1 := <[Z.to_nat row_idx := updated]> df in
                        recompute_then today df1 (λ df',
                          Done (mk_app (<[name := (path, df')]> (files st))
                                       (Some name) (Some df')))
                    end
           end
  end.

(** [df.drop(df.index[row_idx]).reset_index(drop=True)] on a frame whose
    labels are its positions *)
Definition df_drop (row_idx : nat) (df : table) : table := delete row_idx df.

(** [delete_selected]: [row_idx] is [self.table.currentRow()]. *)
Definition delete_selected (today : date) (row_idx : Z) (st : app)
  : outcome app :=
  match selected_name st with
  | None => Dialog "No file"
  | Some name =>
      if row_idx <? 0 then Dialog "Select"
      else match files st !! name with
           | None => Raised "KeyError"
           | Some (path, df) =>
               if Z.of_nat (length df) <=? row_idx then Raised "IndexError"
               else
                 recompute_then today (df_drop (Z.to_nat row_idx) df)
                   (λ df',
                     Done (mk_app (<[name := (path, df')]> (files st))
                                  (Some name) (Some df')))
           end
  end.

(** ** Search and date filter *)

(** [astype(str)] on one cell *)
Definition astype_str_text (c : text_cell) : string :=
  match c with
  | Text s => s
  | TextNaN => "nan"
  end.

Definition astype_str_num (c : num_cell) : string :=
  match c with
  | Num z => pretty z
  | NumFloat x => float_str x
  | NumText s => s
  | NumNaN => "nan"
  end.

(** [df[col].astype(str)] at one row; a name outside the header is a
    [KeyError] *)
Definition column_str (col : string) (r : row) : option string :=
  if bool_decide (col = "Name") then Some (astype_str_text (Name r))
  else if bool_decide (col = "Mobile Number")
       then Some (astype_str_text (Mobile_Number r))
  else if bool_decide (col = "Year") then Some (astype_str_text (Year r))
  else if bool_decide (col = "Dept") then Some (astype_str_text (Dept r))
  else if bool_decide (col = "Fee Amount")
       then Some (astype_str_num (Fee_Amount r))
  else if bool_decide (col = "Fee Paid") then Some (astype_str_num (Fee_Paid r))
  else if bool_decide (col = "Balance") then Some (astype_str_num (Balance r))
  else if bool_decide (col = "Due Date") then Some (astype_str_text (Due_Date r))
  else if bool_decide (col = "Email") then Some (astype_str_text (Email r))
  else if bool_decide (col = "Fee Paid On")
       then Some (astype_str_text (Fee_Paid_On r))
  else None.

(** The mask of [apply_search] at one row: the disjunction, over the
    strict columns, of [str.lower().str.contains(keyword, na=False)]. *)
Definition search_mask (keyword : string) (r : row) : bool :=
  foldl (λ mask col,
           mask || match column_str col r with
                   | Some s => re_search keyword (str_lower s)
                   | None => false
                   end)
        false STRICT_COLUMNS.

(** [apply_search]: [text] is [self.search.text()]. *)
Definition apply_search (text : string) (st : app) : outcome app :=
  match selected_name st with
  | None => Silent
  | Some name =>
      let keyword := str_lower (str_strip text) in
      match files st !! name with
      | None => Raised "KeyError"
      | Some (path, df) =>
          if bool_decide (keyword = "")
          then Done (mk_app (files st) (selected_name st) (Some df))
          else if negb (re_valid keyword) then Raised "re.error"
          else Done (mk_app (files st) (selected_name st)
                            (Some (List.filter (search_mask keyword) df)))
      end
  end.

(** [parsed.dt.month == m] and [parsed.dt.year == y]; NaT compares
    unequal to everything *)
Definition month_is (m : Z) (parsed : option date) : bool :=
  match parsed with
  | Some d => month d =? m
  | None => false
  end.

Definition year_is (y : Z) (parsed : option date) : bool :=
  match parsed with
  | Some d => year d =? y
  | None => false
  end.

(** [df[mask]]: the rows at which the mask holds *)
Fixpoint select (mask : list bool) (df : table) : table :=
  match mask, df with
  | b :: mask', r :: df' =>
      if b then r :: select mask' df' else select mask' df'
  | _, _ => []
  end.

(** [apply_date_filter]: [mon] is the text of the month box ("All" or a
    month number) and [yr] the text of the year field. *)
Definition apply_date_filter (mon yr : string) (st : app) : outcome app :=
  match selected_name st with
  | None => Silent
  | Some name =>
      let yr_text := str_strip yr in
      match files st !! name with
      | None => Raised "KeyError"
      | Some (path, df) =>
          match to_datetime_column (map Due_Date df) with
          | None => Dialog "Date parse"
          | Some parsed =>
              let mask0 := map (λ _ : option date, true) parsed in
              let after_month :=
                if bool_decide (mon ≠ "All")
                then match py_int mon with
                     | Some m =>
                         Some (zip_with andb mask0 (map (month_is m) parsed))
                     | None => None
                     end
                else Some mask0 in
              match after_month with
              | None => Raised "ValueError"
              | Some mask1 =>
                  let after_year :=
                    if bool_decide (yr_text ≠ "")
                    then match py_int yr_text with
                         | Some y =>
                             Some (zip_with andb mask1
                                     (map (year_is y) parsed))
                         | None => None
                         end
                    else Some mask1 in
                  match after_year with
                  | None => Dialog "Year"
                  | Some mask =>
                      Done (mk_app (files st) (selected_name st)
                                   (Some (select mask df)))
                  end
              end
          end
      end
  end.

(** [clear_filters] *)
Definition clear_filters (st : app) : outcome app :=
  match selected_name st with
  | None => Silent
  | Some name =>
      match files st !! name with
      | None => Raised "KeyError"
      | Some (path, df) =>
          Done (mk_app (files st) (selected_name st) (Some df))
      end
  end.

(** The filter as the specification words it: the whole table when
    neither constraint is set, else the records whose Due Date parses
    and meets every constraint that is set.  [parsed] is the Due Date
    column as [pd.to_datetime] read it. *)
Definition meets (want : option Z) (have : Z) : bool :=
  match want with
  | Some w => have =? w
  | None => true
  end.

Definition keeps (mo yr : option Z) (p : option date) : bool :=
  match p with
  | Some d => meets mo (month d) && meets yr (year d)
  | None => false
  end.

Definition filter_by_due_date (mo yr : option Z) (parsed : list (option date))
    (df : table) : table :=
  match mo, yr with
  | None, None => df
  | _, _ => select (map (keeps mo yr) parsed) df
  end.

(** What [apply_date_filter] reads from the month box and the year
    field: no constraint, a number, or text that [int] refuses (the
    outer [None]). *)
Definition month_arg (mon : string) : option (option Z) :=
  if bool_decide (mon ≠ "All")
  then match py_int mon with
       | Some m => Some (Some m)
       | None => None
       end
  else Some None.

Definition year_arg (yr : string) : option (option Z) :=
  if bool_decide (str_strip yr ≠ "")
  then match py_int (str_strip yr) with
       | Some y => Some (Some y)
       | None => None
       end
  else Some None.

(** ** Table widget and report *)

(** What the table widget and the report show for a cell:
    [str(val)], or nothing for NaN. *)
Definition display_num (c : num_cell) : string :=
  match c with
  | Num z => pretty z
  | NumFloat x => float_str x
  | NumText s => s
  | NumNaN => ""
  end.

(** [row.get(col, "")] shown; a name outside the header shows nothing. *)
Definition column_display (col : string) (r : row) : string :=
  if bool_decide (col = "Name") then display_text (Name r)
  else if bool_decide (col = "Mobile Number")
       then display_text (Mobile_Number r)
  else if bool_decide (col = "Year") then display_text (Year r)
  else if bool_decide (col = "Dept") then display_text (Dept r)
  else if bool_decide (col = "Fee Amount") then display_num (Fee_Amount r)
  else if bool_decide (col = "Fee Paid") then display_num (Fee_Paid r)
  else if bool_decide (col = "Balance") then display_num (Balance r)
  else if bool_decide (col = "Due Date") then display_text (Due_Date r)
  else if bool_decide (col = "Email") then display_text (Email r)
  else if bool_decide (col = "Fee Paid On")
       then display_text (Fee_Paid_On r)
  else "".

(** [refresh_table]: the texts of the table widget, row by row. *)
Definition refresh_table (df : option table) : list (list string) :=
  match df with
  | None => []
  | Some [] => []
  | Some df =>
      map (λ r, map (λ col, column_display col r) STRICT_COLUMNS) df
  end.

Definition pdf_columns : list string :=
  [ "Name"; "Mobile Number"; "Balance"; "Due Date" ].

(** [_build_pdf]: the rows handed to the report table, header first. *)
Definition _build_pdf (df : table) : list (list string) :=
  let available_cols :=
    List.filter (λ col, bool_decide (col ∈ STRICT_COLUMNS)) pdf_columns in
  let data := [available_cols] in
  data ++ map (λ r, map (λ col, column_display col r) available_cols) df.

(** [export_pdf]: [path] is what the file dialog returned and [built]
    tells whether the document could be written. *)
Definition export_pdf (path : string) (built : bool) (st : app)
  : outcome (list (list string)) :=
  match current_df_view st with
  | None => Dialog "No data"
  | Some [] => Dialog "No data"
  | Some view =>
      if bool_decide (path = "") then Silent
      else if built then Done (_build_pdf view)
      else Dialog "Error"
  end.

(** ** Reminders *)

Definition nl : string := String "010"%char "".

(** The text of a reminder. *)
Definition reminder_body (r : row) : string :=
  let body :=
    "Hello " +:+ astype_str_text (Name r) +:+ "," +:+ nl +:+ nl +:+
    "This is a gentle reminder that your pending fee balance is" +:+
    astype_str_num (Balance r) +:+ "." +:+ nl in
  let body :=
    if truthy (Due_Date r)
    then body +:+ "Due Date: " +:+ astype_str_text (Due_Date r) +:+ nl
    else body in
  body +:+
  "Kindly make the payment at the earliest to avoid any late charges." +:+ nl
  +:+ "If you have already completed the payment, please disregard this message."
  +:+ nl +:+ "Thank you for your prompt attention." +:+ nl +:+
  "Please pay at the earliest." +:+ nl +:+ nl +:+ "Regards," +:+ nl +:+
  "PyLinX Hub".

(** [not to or str(to).strip() == ""] *)
Definition no_email (to : text_cell) : bool :=
  negb (truthy to) || bool_decide (str_strip (astype_str_text to) = "").

(** The mail server as the loop meets it, for the [i]th recipient:
    [connect i] is what opening the session and logging in gives, and
    [sendmail i to text] what handing over the mail and closing the
    session gives; [None] when all went well, the text of the exception
    otherwise. *)
Record mail_server := mk_server {
  connect : nat → option string;
  sendmail : nat → string → string → option string
}.

(** The state of the sending loop: the count of mails sent, the
    failures (address as shown, reason) and the mails handed to the
    server (address, text), oldest first. *)
Record mail_log := mk_log {
  sent : nat;
  failed : list (string * string);
  calls : list (string * string)
}.

(** One turn of the loop of lines 538 to 563.  Inside the [try] the
    session is opened first; [msg.as_string()] is evaluated next and
    raises when the address is NaN, a float, so that nothing is handed
    over; only then is [sendmail] called. *)
Definition send_one (smtp : mail_server) (i : nat) (r : row)
    (log : mail_log) : mail_log :=
  let to := Email r in
  if no_email to
  then mk_log (sent log)
              (failed log ++ [("(no email)", "missing email")])
              (calls log)
  else
    let body := reminder_body r in
    match connect smtp i with
    | Some e =>
        mk_log (sent log) (failed log ++ [(astype_str_text to, e)])
               (calls log)
    | None =>
        match to with
        | TextNaN =>
            mk_log (sent log)
                   (failed log ++ [(astype_str_text to, header_error)])
                   (calls log)
        | Text address =>
            match sendmail smtp i address body with
            | None =>
                mk_log (S (sent log)) (failed log)
                       (calls log ++ [(address, body)])
            | Some e =>
                mk_log (sent log) (failed log ++ [(address, e)])
                       (calls log ++ [(address, body)])
            end
        end
    end.

Fixpoint send_loop (smtp : mail_server) (i : nat) (recipients : table)
    (log : mail_log) : mail_log :=
  match recipients with
  | [] => log
  | r :: rest => send_loop smtp (S i) rest (send_one smtp i r log)
  end.

(** The first line of the result box and the failures it lists. *)
Definition result_info (log : mail_log) : string :=
  let info := "Sent: " +:+ pretty (sent log) in
  match failed log with
  | [] => info
  | _ :: _ => info +:+ ", Failed: " +:+ pretty (length (failed log))
  end.

Definition result_details (log : mail_log) : list string :=
  map (λ '(t, err), t +:+ ": " +:+ err) (take 10 (failed log)).

(** [int(row["Balance"]) > 0] *)
Definition has_due (r : row) : bool := 0 <? int_value (Balance r).

(** [send_reminders]: [choice] is the answer of the first box ([None]:
    cancelled), [row_idx] is [self.table.currentRow()] and [smtp] the
    mail server the four connection boxes lead to ([None]: one of them
    was cancelled). *)
Definition send_reminders (today : date) (choice : option string)
    (row_idx : Z) (smtp : option mail_server) (st : app)
  : outcome mail_log :=
  match selected_name st with
  | None => Dialog "No file"
  | Some name =>
      match choice with
      | None => Silent
      | Some choice =>
          match files st !! name with
          | None => Raised "KeyError"
          | Some (path, df0) =>
              recompute_then today df0 (λ df,
                let picked :=
                  if bool_decide (choice = "Selected row only")
                  then
                    if row_idx <? 0 then Dialog "Select"
                    else match df !! Z.to_nat row_idx with
                         | None => Raised "IndexError"
                         | Some r =>
                             if int_value (Balance r) <=? 0
                             then Dialog "No due"
                             else Done [r]
                         end
                  else Done (List.filter has_due df) in
                match picked with
                | Done [] => Dialog "No recipients"
                | Done recipients =>
                    match smtp with
                    | None => Silent
                    | Some smtp =>
                        Done (send_loop smtp 0 recipients (mk_log 0 [] []))
                    end
                | Dialog t => Dialog t
                | Silent => Silent
                | Raised e => Raised e
                end)
          end
      end
  end.

(** A store is consistent when all its tables are stable. *)
Definition consistent (fs : gmap string (string * table)) : Prop :=
  map_Forall (λ _ entry, stable entry.2) fs.

(** [st'] shows a view of the table selected in [st]: the store and
    the selection are those of [st], and the view holds records of the
    selected table in the order of the table. *)
Definition is_view_of (st st' : app) : Prop :=
  files st' = files st
  ∧ selected_name st' = selected_name st
  ∧ ∃ name path df v,
      selected_name st = Some name
      ∧ files st !! name = Some (path, df)
      ∧ current_df_view st' = Some v
      ∧ v `sublist_of` df.

(** The record the dialog leads to in the store, written out. *)
Definition dialog_row (today : date) (w : StudentDialog) : row :=
  let bal := Z.max 0 (spin_value (w_Fee_Amount w)
                      - spin_value (w_Fee_Paid w)) in
  mk_row (Text (str_strip (w_Name w))) (Text (str_strip (w_Mobile_Number w)))
         (Text (str_strip (w_Year w))) (Text (str_strip (w_Dept w)))
         (Num (spin_value (w_Fee_Amount w)))
         (Num (spin_value (w_Fee_Paid w))) (Num bal)
         (if bal =? 0 then Text "" else Text (qdate_toString (w_Due_Date w)))
         (Text (str_strip (w_Email w)))
         (Text (if bal =? 0 then today_str today else "")).

(** The invariants the data model states for a record: Balance is zero
    exactly when Due Date is empty and Fee Paid On is not, and Balance is
    positive exactly when Fee Paid On is empty. *)
Definition paid_invariants (r : row) : Prop :=
  (int_value (Balance r) = 0
   ↔ is_empty (Due_Date r) = true ∧ is_empty (Fee_Paid_On r) = false)
  ∧ (0 < int_value (Balance r) ↔ is_empty (Fee_Paid_On r) = true).

(** The string representations of the ten fields of a record, in the
    order of the header. *)
Definition row_strings (r : row) : list string :=
  [ astype_str_text (Name r); astype_str_text (Mobile_Number r);
    astype_str_text (Year r); astype_str_text (Dept r);
    astype_str_num (Fee_Amount r); astype_str_num (Fee_Paid r);
    astype_str_num (Balance r); astype_str_text (Due_Date r);
    astype_str_text (Email r); astype_str_text (Fee_Paid_On r) ].

(** Some field, lowercased, contains the keyword. *)
Definition some_field_contains (keyword : string) (r : row) : bool :=
  existsb (λ s, is_substring keyword (str_lower s)) (row_strings r).

(** An Email cell the loop can send to: text that is not blank.  A
    NaN cell passes the test of line 540 but cannot be made into a
    header. *)
Definition has_address (to : text_cell) : bool :=
  match to with
  | Text address => negb (no_email to)
  | TextNaN => false
  end.

(** The mail the loop hands to the server for a record. *)
Definition mail_of (r : row) : string * string :=
  (astype_str_text (Email r), reminder_body r).

End business_rules.

(** ** A small implementation of the library interface

    It is there to run the model on concrete inputs.  It reads decimal
    numbers, the two infinities and ISO dates, lowercases and strips
    ASCII, and matches patterns of ordinary characters and dots; what
    the interface leaves open it fills in the simplest way (integers
    beyond 64 bits wrap, a column whose first date is not an ISO date
    has no date, any other pattern is refused).  No statement about the
    program rests on those choices. *)

Definition digit_value (c : ascii) : option Z :=
  match Ascii.is_nat c with
  | Some n => Some (Z.of_nat n)
  | None => None
  end.

Fixpoint digits_from (acc : Z) (s : string) : option Z :=
  match s with
  | "" => Some acc
  | String c s' =>
      match digit_value c with
      | Some d => digits_from (10 * acc + d) s'
      | None => None
      end
  end.

Definition parse_digits (s : string) : option Z :=
  match s with
  | "" => None
  | String _ _ => digits_from 0 s
  end.

(** An optional sign and at least one decimal digit. *)
Definition parse_decimal (s : string) : option Z :=
  match s with
  | String c s' =>
      if bool_decide (c = "-"%char) then Z.opp <$> parse_digits s'
      else if bool_decide (c = "+"%char) then parse_digits s'
      else parse_digits s
  | "" => None
  end.

(** The text before the first point, and the text after it if there is
    a point. *)
Fixpoint split_point (s : string) : string * option string :=
  match s with
  | "" => ("", None)
  | String c s' =>
      if bool_decide (c = "."%char) then ("", Some s')
      else let '(a, b) := split_point s' in (String c a, b)
  end.

(** Digits, or digits, a point and digits: the fraction they spell. *)
Definition parse_unsigned (s : string) : option number :=
  match split_point s with
  | (a, None) =>
      match parse_digits a with
      | Some z => Some (Finite z 1)
      | None => None
      end
  | (a, Some b) =>
      match parse_digits a, parse_digits b with
      | Some z, Some f =>
          let scale := 10 ^ Z.of_nat (String.length b) in
          Some (Finite (z * scale + f) (Z.to_pos scale))
      | _, _ => None
      end
  end.

Definition negate (x : number) : number :=
  match x with
  | Finite n d => Finite (- n) d
  | Infinity negative => Infinity (negb negative)
  end.

Definition parse_magnitude (s : string) : option number :=
  if bool_decide (lower s = "inf") || bool_decide (lower s = "infinity")
  then Some (Infinity false)
  else parse_unsigned s.

(** A decimal number with an optional sign, or an infinity. *)
Definition parse_number (s : string) : option number :=
  match s with
  | String c s' =>
      if bool_decide (c = "-"%char) then negate <$> parse_magnitude s'
      else if bool_decide (c = "+"%char) then parse_magnitude s'
      else parse_magnitude s
  | "" => None
  end.

Definition is_infinite (v : option number) : bool :=
  match v with
  | Some (Infinity _) => true
  | _ => false
  end.

Definition small_int_column (parse : string → option number)
    (col : list num_cell) : option (list Z) :=
  if existsb (λ c, is_infinite (cell_value_with parse c)) col then None
  else Some (map (λ c, match cell_value_with parse c with
                       | Some x => int64_wrap (trunc x)
                       | None => 0
                       end) col).

(** The digits of [r/d] after the point, at most [fuel] of them. *)
Fixpoint fraction_digits (fuel : nat) (r d : Z) : string :=
  match fuel with
  | O => ""
  | S fuel' =>
      if r =? 0 then ""
      else pretty (10 * r / d) +:+ fraction_digits fuel' (10 * r mod d) d
  end.

Definition small_float_str (x : number) : string :=
  match x with
  | Finite n d =>
      let a := Z.abs n in
      let whole := a / Z.pos d in
      let rest := a mod Z.pos d in
      (if n <? 0 then "-" else "") +:+ pretty whole +:+ "." +:+
      (if rest =? 0 then "0" else fraction_digits 17 rest (Z.pos d))
  | Infinity negative => if negative then "-inf" else "inf"
  end.

Definition is_leap (y : Z) : bool :=
  ((y mod 4 =? 0) && negb (y mod 100 =? 0)) || (y mod 400 =? 0).

Definition days_in_month (y m : Z) : Z :=
  if m =? 2 then (if is_leap y then 29 else 28)
  else if (m =? 4) || (m =? 6) || (m =? 9) || (m =? 11) then 30
  else 31.

(** [YYYY-MM-DD], within the years that a nanosecond time stamp
    covers entirely *)
Definition parse_iso_date (s : string) : option date :=
  if bool_decide (String.length s = 10%nat
                  ∧ String.get 4 s = Some "-"%char
                  ∧ String.get 7 s = Some "-"%char)
  then
    match parse_digits (String.substring 0 4 s),
          parse_digits (String.substring 5 2 s),
          parse_digits (String.substring 8 2 s) with
    | Some y, Some m, Some d =>
        if (1678 <=? y) && (y <=? 2261) && (1 <=? m) && (m <=? 12)
           && (1 <=? d) && (d <=? days_in_month y m)
        then Some (mk_date y m d) else None
    | _, _, _ => None
    end
  else None.

Definition iso_cell (c : text_cell) : option date :=
  match c with
  | Text s => parse_iso_date s
  | TextNaN => None
  end.

(** The first cell that is not blank decides the format of the column:
    with an ISO date there, the ISO dates of the column are read. *)
Definition small_to_datetime (col : list text_cell)
  : option (list (option date)) :=
  match List.filter (λ c, negb (is_empty c)) col with
  | first :: _ =>
      match iso_cell first with
      | Some _ => Some (map iso_cell col)
      | None => Some (map (λ _, None) col)
      end
  | [] => Some (map (λ _, None) col)
  end.

Definition small_library : Library.
Proof.
  refine {| to_numeric_text := λ s, parse_number (strip s);
            int_column := small_int_column (λ s, parse_number (strip s));
            float_str := small_float_str;
            to_datetime_column := small_to_datetime;
            py_int := λ s, parse_decimal (strip s);
            str_lower := lower;
            str_strip := strip;
            re_valid := dotted;
            re_search := dot_search;
            header_error := "'float' object has no attribute 'encode'" |}.
  - (* length *)
    intros col zs. unfold small_int_column.
    destruct (existsb _ col); [done|]. intros [= <-]. apply length_map.
  - (* range *)
    intros col zs. unfold small_int_column.
    destruct (existsb _ col); [done|]. intros [= <-].
    apply Forall_forall. intros z Hz.
    apply list_elem_of_In, List.in_map_iff in Hz as (c & <- & _).
    destruct (cell_value_with _ c); unfold in_int64, int64_min, int64_max,
      int64_wrap; [|lia].
    pose proof (Z.mod_pos_bound (trunc n + 9223372036854775808)
                  18446744073709551616 eq_refl). lia.
  - (* a column of integers *)
    intros zs Hzs. unfold small_int_column.
    replace (existsb _ (map Num zs)) with false.
    + f_equal. rewrite map_map.
      induction Hzs as [|z zs Hz _ IH]; simpl; [done|]. f_equal; [|done].
      rewrite Z.quot_1_r. unfold int64_wrap.
      unfold in_int64, int64_min, int64_max in Hz.
      rewrite Z.mod_small by lia. lia.
    + symmetry. clear Hzs. induction zs; simpl; done.
  - (* NaN *)
    intros col zs i c. unfold small_int_column.
    destruct (existsb _ col); [done|]. intros [= <-] Hc Hnan.
    rewrite list_lookup_fmap, Hc. simpl. by rewrite Hnan.
  - (* finite *)
    intros col zs i c n d. unfold small_int_column.
    destruct (existsb _ col); [done|]. intros [= <-] Hc Hval Hsmall.
    rewrite list_lookup_fmap, Hc. simpl. rewrite Hval. f_equal.
    unfold int64_wrap. unfold exact_float_bound in Hsmall.
    unfold trunc in *. set (t := Z.quot n (Z.pos d)) in *. clearbody t.
    rewrite Z.mod_small by lia. lia.
  - (* infinite *)
    intros col i c negative Hc Hval. unfold small_int_column.
    replace (existsb _ col) with true; [done|].
    symmetry. apply List.existsb_exists. exists c. split.
    + apply list_elem_of_In, list_elem_of_lookup. eauto.
    + by rewrite Hval.
  - (* total *)
    intros col Hcol. unfold small_int_column.
    replace (existsb _ col) with false; [eauto|].
    symmetry. induction Hcol as [|c col Hc _ IH]; simpl; [done|].
    rewrite IH, orb_false_r.
    destruct (cell_value_with _ c) as [[n d|negative]|]; done.
  - (* dates: length *)
    intros col parsed. unfold small_to_datetime.
    destruct (List.filter _ col) as [|first rest];
      [|destruct (iso_cell first)]; intros [= <-]; apply length_map.
  - (* dates: blank cells *)
    intros col parsed i c. unfold small_to_datetime.
    assert (Hblank : is_empty c = true → iso_cell c = None).
    { destruct c as [s|]; [|done]. unfold is_empty; simpl.
      intros Hs. apply bool_decide_eq_true in Hs. by subst s. }
    destruct (List.filter _ col) as [|first rest];
      [|destruct (iso_cell first)]; intros [= <-] Hc Hempty;
      rewrite list_lookup_fmap, Hc; simpl; [done| |done].
    by rewrite (Hblank Hempty).
  - done.
  - done.
  - (* ordinary patterns *)
    intros pat s Hplain.
    assert (Hhere : ∀ t, match_here pat t = is_prefix pat t).
    { induction pat as [|a p IH]; intros t; simpl; [done|].
      simpl in Hplain. apply andb_prop in Hplain as [Ha Hp].
      destruct t as [|b t]; [done|].
      rewrite (IH Hp). rewrite bool_decide_eq_false_2; [done|].
      intros ->. discriminate Ha. }
    split.
    + clear Hhere. induction pat as [|a p IH]; simpl; [done|].
      simpl in Hplain. apply andb_prop in Hplain as [Ha Hp].
      by rewrite Ha, (IH Hp).
    + induction s as [|b s IH]; simpl; rewrite Hhere; [done|].
      by rewrite IH.
  - done.
Defined.

(** ** Data to run the model on *)

Definition sample_row : row :=
  mk_row (Text "John Doe") (Text "9876543210") (Text "2") (Text "CSE")
         (Num 5000) (Num 2000) (Num 0)
         (Text "2025-03-10") (Text "john@example.com") (Text "").

Definition sample_day : date := mk_date 2025 3 1.

(** A record that is fully paid and whose Fee Paid On cell is blank in
    the sheet, so that pandas reads NaN for it. *)
Definition nan_paid_row : row :=
  mk_row (Text "Asha") (Text "9000000001") (Text "3") (Text "ECE")
         (Num 5000) (Num 5000) (Num 0)
         (Text "2025-04-01") (Text "asha@example.com") TextNaN.

(** A record whose Fee Amount cell holds a negative number. *)
Definition negative_row : row :=
  mk_row (Text "Ravi") (Text "9000000002") (Text "1") (Text "EEE")
         (Num (-5)) (Num 0) (Num 0)
         (Text "2025-04-01") (Text "ravi@example.com") (Text "").

(** A record that was paid on an earlier day. *)
Definition paid_row : row :=
  mk_row (Text "Mina") (Text "9000000003") (Text "4") (Text "IT")
         (Num 5000) (Num 5000) (Num 0)
         (Text "") (Text "mina@example.com") (Text "2024-12-24").

(** A record whose fees are the largest 64-bit integer and minus one:
    their difference does not fit in 64 bits. *)
Definition overflow_row : row :=
  mk_row (Text "Zoe") (Text "9000000007") (Text "1") (Text "CSE")
         (Num int64_max) (Num (-1)) (Num 0)
         (Text "2025-09-01") (Text "zoe@example.com") (Text "").

(** A record whose Fee Amount cell holds the text of a number that is
    not an integer, and one whose Fee Paid cell holds the text of an
    infinity. *)
Definition decimal_row : row :=
  mk_row (Text "Iman") (Text "9000000008") (Text "2") (Text "IT")
         (NumText "12.5") (NumText "paid") (Num 0)
         (Text "2025-09-01") (Text "iman@example.com") (Text "").

Definition infinite_row : row :=
  mk_row (Text "Noor") (Text "9000000009") (Text "2") (Text "IT")
         (Num 100) (NumText "inf") (Num 0)
         (Text "2025-09-01") (Text "noor@example.com") (Text "").

(** Headers that differ from the strict one: too short, two names
    swapped, one name in another case. *)
Definition short_header : list string := [ "Name"; "Mobile Number"; "Year" ].

Definition swapped_header : list string :=
  [ "Mobile Number"; "Name"; "Year"; "Dept";
    "Fee Amount"; "Fee Paid"; "Balance";
    "Due Date"; "Email"; "Fee Paid On" ].

Definition lowercase_header : list string :=
  [ "name"; "Mobile Number"; "Year"; "Dept";
    "Fee Amount"; "Fee Paid"; "Balance";
    "Due Date"; "Email"; "Fee Paid On" ].

(** A store with one open file of three records. *)
Definition three_rows : table := [ sample_row; paid_row; negative_row ].

Definition sample_app : app :=
  mk_app {[ "fees.xlsx" := ("/data/fees.xlsx", three_rows) ]}
         (Some "fees.xlsx") (Some three_rows).

(** The three records as recompute leaves them on the sample day, and a
    store that holds them. *)
Definition stable_rows : table :=
  [ mk_row (Text "John Doe") (Text "9876543210") (Text "2") (Text "CSE")
           (Num 5000) (Num 2000) (Num 3000)
           (Text "2025-03-10") (Text "john@example.com") (Text "");
    paid_row;
    mk_row (Text "Ravi") (Text "9000000002") (Text "1") (Text "EEE")
           (Num (-5)) (Num 0) (Num 0)
           (Text "") (Text "ravi@example.com") (Text "2025-03-01") ].

Definition stable_app : app :=
  mk_app {[ "fees.xlsx" := ("/data/fees.xlsx", stable_rows) ]}
         (Some "fees.xlsx") (Some stable_rows).

(** A dialog filled in for the examples. *)
Definition sample_dialog : StudentDialog :=
  mk_dialog " Lena " "9000000004" "2" "MECH" (mk_spin 4000 I) (mk_spin 4000 I)
            "" (mk_date 2025 6 1) "lena@example.com" "".

(** Records and a mail server for the reminder examples: one record
    that owes and has an address, one that owes and has a blank address,
    one that is paid, and one that owes and whose address cell is NaN.
    The server takes every mail. *)
Definition blank_mail_row : row :=
  mk_row (Text "Omar") (Text "9000000005") (Text "1") (Text "CIVIL")
         (Num 3000) (Num 1000) (Num 2000)
         (Text "2025-07-01") (Text "  ") (Text "").

Definition nan_mail_row : row :=
  mk_row (Text "Sara") (Text "9000000006") (Text "2") (Text "CSE")
         (Num 3000) (Num 0) (Num 3000)
         (Text "2025-08-01") TextNaN (Text "").

Definition reminder_rows : table :=
  [ sample_row; blank_mail_row; paid_row; nan_mail_row ].

Definition reminder_app : app :=
  mk_app {[ "fees.xlsx" := ("/data/fees.xlsx", reminder_rows) ]}
         (Some "fees.xlsx") (Some reminder_rows).

Definition sample_smtp : mail_server :=
  mk_server (λ _, None) (λ _ _ _, None).

(** * Properties *)

(** ** Auxiliary facts *)

Lemma clip_lower_max (x : Z) : clip_lower 0 x = Z.max 0 x.
Proof. unfold clip_lower. destruct (Z.ltb_spec x 0); lia. Qed.

Lemma int64_wrap_range (z : Z) : in_int64 (int64_wrap z).
Proof.
  unfold in_int64, int64_min, int64_max, int64_wrap.
  pose proof (Z.mod_pos_bound (z + 9223372036854775808)
                18446744073709551616 eq_refl). lia.
Qed.

Lemma int64_wrap_small (z : Z) : in_int64 z → int64_wrap z = z.
Proof.
  unfold in_int64, int64_min, int64_max, int64_wrap. intros Hz.
  rewrite Z.mod_small by lia. lia.
Qed.

Lemma app_nonempty_r (a b : string) : b ≠ "" → a +:+ b ≠ "".
Proof.
  intros Hb. destruct a as [|c a]; [exact Hb|].
  unfold String.app; simpl. discriminate.
Qed.

Lemma today_str_nonempty (today : date) : today_str today ≠ "".
Proof.
  change (today_str today)
    with (zfill 4 (pretty (year today))
          +:+ String "-" (zfill 2 (pretty (month today))
                          +:+ String "-" (zfill 2 (pretty (day today))
                                          +:+ ""))).
  apply app_nonempty_r. discriminate.
Qed.

Lemma truthy_nonempty (s : string) : s ≠ "" → truthy (Text s) = true.
Proof. intros Hs. destruct s; [done|reflexivity]. Qed.

Lemma truthy_today (today : date) : truthy (Text (today_str today)) = true.
Proof. apply truthy_nonempty, today_str_nonempty. Qed.

Lemma truthy_not_empty (c : text_cell) :
  is_empty c = false → truthy c = true.
Proof.
  destruct c as [s|]; [|discriminate].
  unfold is_empty; simpl. intros Hs. apply truthy_nonempty.
  by apply bool_decide_eq_false in Hs.
Qed.

Lemma today_not_empty today : is_empty (Text (today_str today)) = false.
Proof.
  unfold is_empty; simpl. apply bool_decide_eq_false_2, today_str_nonempty.
Qed.

Lemma lookup_map {A B : Type} (f : A → B) (l : list A) (i : nat) :
  map f l !! i = f <$> l !! i.
Proof.
  revert i. induction l as [|x l IH]; intros [|i]; simpl; auto.
Qed.

Lemma map_fixed_lookup {A : Type} (f : A → A) (l : list A) (i : nat) (x : A) :
  map f l = l → l !! i = Some x → f x = x.
Proof.
  revert i. induction l as [|y l IH]; intros i Hmap Hi; [done|].
  simpl in Hmap. injection Hmap as Hy Hl.
  destruct i as [|i]; simpl in Hi.
  - by injection Hi as <-.
  - by apply (IH i).
Qed.

(** ** Recompute, row by row *)

Lemma finish_rows_length today fas fps df :
  length fas = length df → length fps = length df →
  length (finish_rows today fas fps df) = length df.
Proof.
  revert fas fps. induction df as [|r df IH]; intros [|fa fas] [|fp fps];
    simpl; try done. intros [= Ha] [= Hp]. f_equal. by apply IH.
Qed.

Lemma finish_rows_lookup today fas fps df i fa fp r :
  fas !! i = Some fa → fps !! i = Some fp → df !! i = Some r →
  finish_rows today fas fps df !! i = Some (finish_row today fa fp r).
Proof.
  revert fas fps i. induction df as [|r0 df IH];
    intros [|fa0 fas] [|fp0 fps] [|i]; simpl; try done.
  - by intros [= ->] [= ->] [= ->].
  - apply IH.
Qed.

Lemma finish_rows_Forall2 today (P : row → row → Prop) fas fps df :
  length fas = length df → length fps = length df →
  Forall in_int64 fas → Forall in_int64 fps →
  (∀ fa fp r, in_int64 fa → in_int64 fp → P r (finish_row today fa fp r)) →
  Forall2 P df (finish_rows today fas fps df).
Proof.
  intros Ha Hp Hra Hrp HP. revert fas fps Ha Hp Hra Hrp.
  induction df as [|r df IH]; intros [|fa fas] [|fp fps]; simpl; try done.
  intros [= Ha] [= Hp] Hra Hrp.
  apply Forall_cons in Hra as [? ?]. apply Forall_cons in Hrp as [? ?].
  constructor; auto.
Qed.

Lemma finish_rows_columns today fas fps df :
  length fas = length df → length fps = length df →
  map Fee_Amount (finish_rows today fas fps df) = map Num fas
  ∧ map Fee_Paid (finish_rows today fas fps df) = map Num fps.
Proof.
  revert fas fps. induction df as [|r df IH]; intros [|fa fas] [|fp fps];
    simpl; try done. intros [= Ha] [= Hp].
  destruct (IH fas fps Ha Hp) as [-> ->]. done.
Qed.

Lemma finish_row_idem today today' fa fp r :
  finish_row today' fa fp (finish_row today fa fp r) = finish_row today fa fp r.
Proof.
  unfold finish_row; simpl.
  destruct (clip_lower 0 _ =? 0) eqn:Hbal; [|done].
  f_equal. destruct (truthy (Fee_Paid_On r)) eqn:Ht.
  - by rewrite Ht.
  - by rewrite truthy_today.
Qed.

Lemma finish_rows_idem today today' fas fps df :
  finish_rows today' fas fps (finish_rows today fas fps df)
  = finish_rows today fas fps df.
Proof.
  revert fas fps. induction df as [|r df IH]; intros [|fa fas] [|fp fps];
    simpl; try done. by rewrite finish_row_idem, IH.
Qed.

Lemma finish_rows_app today fas1 fps1 df1 fas2 fps2 df2 :
  length fas1 = length df1 → length fps1 = length df1 →
  finish_rows today (fas1 ++ fas2) (fps1 ++ fps2) (df1 ++ df2)
  = finish_rows today fas1 fps1 df1 ++ finish_rows today fas2 fps2 df2.
Proof.
  revert fas1 fps1. induction df1 as [|r df1 IH];
    intros [|fa fas1] [|fp fps1]; simpl; try done.
  intros [= Ha] [= Hp]. by rewrite IH.
Qed.

Section recompute_facts.
Context `{Library}.

Lemma loop_is_map today (pre rows : table) :
  foldl (λ acc '(idx, snap), alter (loop_body today snap) idx acc)
        (pre ++ rows) (iterrows_from (length pre) rows)
  = pre ++ map (λ r, loop_body today r r) rows.
Proof.
  revert pre. induction rows as [|r rows IH]; intros pre; simpl; [done|].
  replace (alter (loop_body today r) (length pre) (pre ++ r :: rows))
    with ((pre ++ [loop_body today r r]) ++ rows).
  - replace (S (length pre)) with (length (pre ++ [loop_body today r r]))
      by (rewrite length_app; simpl; lia).
    rewrite IH. by rewrite <- app_assoc.
  - rewrite <- app_assoc. simpl.
    induction pre as [|p pre IHp]; simpl; [done|]. by f_equal.
Qed.

Lemma passes_are_finish_rows today fas fps df :
  length fas = length df → length fps = length df →
  map (λ r, loop_body today r r)
    (map (λ r, set_Balance
                 (Num (clip_lower 0
                         (int64_sub (int_value (Fee_Amount r))
                                    (int_value (Fee_Paid r))))) r)
       (zip_with (λ z r, set_Fee_Paid (Num z) r) fps
          (zip_with (λ z r, set_Fee_Amount (Num z) r) fas df)))
  = finish_rows today fas fps df.
Proof.
  revert fas fps. induction df as [|r df IH]; intros [|fa fas] [|fp fps];
    simpl; try done. intros [= Ha] [= Hp]. rewrite (IH fas fps Ha Hp).
  f_equal. unfold loop_body, finish_row; simpl.
  destruct (clip_lower 0 _ =? 0); [|done].
  by destruct (truthy (Fee_Paid_On r)).
Qed.

Lemma fee_paid_after_amount fas (df : table) :
  length fas = length df →
  map Fee_Paid (zip_with (λ z r, set_Fee_Amount (Num z) r) fas df)
  = map Fee_Paid df.
Proof.
  revert fas. induction df as [|r df IH]; intros [|fa fas]; simpl; try done.
  intros [= Ha]. by rewrite IH.
Qed.

(** Recompute returns exactly when both fee columns convert, and then
    it is [finish_rows] on the two converted columns: the column passes
    and the loop over [iterrows] together act row by row. *)
Lemma recalculate_unfold today df :
  _recalculate_business_rules today df
  = match int_column (map Fee_Amount df), int_column (map Fee_Paid df) with
    | Some fas, Some fps => Some (finish_rows today fas fps df)
    | _, _ => None
    end.
Proof.
  unfold _recalculate_business_rules, iterrows.
  destruct (int_column (map Fee_Amount df)) as [fas|] eqn:Hfa; simpl; [|done].
  pose proof (int_column_length _ _ Hfa) as Hla. rewrite length_map in Hla.
  rewrite (fee_paid_after_amount _ _ Hla).
  destruct (int_column (map Fee_Paid df)) as [fps|] eqn:Hfp; simpl; [|done].
  pose proof (int_column_length _ _ Hfp) as Hlp. rewrite length_map in Hlp.
  f_equal.
  match goal with |- foldl _ ?d _ = _ =>
    pose proof (loop_is_map today [] d) as E end.
  simpl in E. rewrite E. clear E.
  by apply passes_are_finish_rows.
Qed.

Lemma recalculate_Some today df df' :
  _recalculate_business_rules today df = Some df' →
  ∃ fas fps,
    int_column (map Fee_Amount df) = Some fas
    ∧ int_column (map Fee_Paid df) = Some fps
    ∧ length fas = length df ∧ length fps = length df
    ∧ Forall in_int64 fas ∧ Forall in_int64 fps
    ∧ df' = finish_rows today fas fps df.
Proof.
  rewrite recalculate_unfold.
  destruct (int_column (map Fee_Amount df)) as [fas|] eqn:Hfa; [|done].
  destruct (int_column (map Fee_Paid df)) as [fps|] eqn:Hfp; [|done].
  intros [= <-]. exists fas, fps.
  pose proof (int_column_length _ _ Hfa) as Hla. rewrite length_map in Hla.
  pose proof (int_column_length _ _ Hfp) as Hlp. rewrite length_map in Hlp.
  repeat split; try done; eauto using int_column_range.
Qed.

Lemma recalculate_Forall2 today (P : row → row → Prop) df df' :
  _recalculate_business_rules today df = Some df' →
  (∀ fa fp r, in_int64 fa → in_int64 fp → P r (finish_row today fa fp r)) →
  Forall2 P df df'.
Proof.
  intros Hdone HP.
  apply recalculate_Some in Hdone
    as (fas & fps & _ & _ & Hla & Hlp & Hra & Hrp & ->).
  by apply finish_rows_Forall2.
Qed.

(** A table that recompute returned is returned as it is by recompute
    on any day. *)
Lemma recalculate_fixed today today' df df' :
  _recalculate_business_rules today df = Some df' →
  _recalculate_business_rules today' df' = Some df'.
Proof.
  intros Hdone.
  apply recalculate_Some in Hdone
    as (fas & fps & _ & _ & Hla & Hlp & Hra & Hrp & ->).
  rewrite recalculate_unfold.
  destruct (finish_rows_columns today fas fps df Hla Hlp) as [-> ->].
  rewrite (int_column_ints _ Hra), (int_column_ints _ Hrp).
  by rewrite finish_rows_idem.
Qed.

Lemma stable_recalc today df df' :
  _recalculate_business_rules today df = Some df' → stable df'.
Proof. intros Hdone today'. exact (recalculate_fixed _ _ _ _ Hdone). Qed.

Lemma stable_nil : stable [].
Proof.
  intros today. rewrite recalculate_unfold. simpl.
  by rewrite (int_column_ints [] (Forall_nil_2 _)).
Qed.

(** In a stable table the fee cells are 64-bit integers and every row is
    as [finish_row] leaves it. *)
Lemma stable_columns today df :
  stable df →
  ∃ fas fps,
    map Fee_Amount df = map Num fas ∧ map Fee_Paid df = map Num fps
    ∧ length fas = length df ∧ length fps = length df
    ∧ Forall in_int64 fas ∧ Forall in_int64 fps
    ∧ df = finish_rows today fas fps df.
Proof.
  intros Hst. destruct (recalculate_Some _ _ _ (Hst today))
    as (fas & fps & _ & _ & Hla & Hlp & Hra & Hrp & Hdf).
  exists fas, fps.
  destruct (finish_rows_columns today fas fps df Hla Hlp) as [Ha Hp].
  rewrite <- Hdf in Ha, Hp. done.
Qed.

End recompute_facts.

Lemma finish_rows_lookup_inv today fas fps df i r' :
  finish_rows today fas fps df !! i = Some r' →
  ∃ fa fp r, fas !! i = Some fa ∧ fps !! i = Some fp ∧ df !! i = Some r
             ∧ r' = finish_row today fa fp r.
Proof.
  revert fas fps i. induction df as [|r0 df IH];
    intros [|fa0 fas] [|fp0 fps] [|i]; simpl; try done.
  - intros [= <-]. by exists fa0, fp0, r0.
  - apply IH.
Qed.

Lemma finish_rows_ignore_balance today (f : row → num_cell) fas fps df :
  finish_rows today fas fps (map (λ r, set_Balance (f r) r) df)
  = finish_rows today fas fps df.
Proof.
  revert fas fps. induction df as [|r df IH]; intros [|fa fas] [|fp fps];
    simpl; try done. by rewrite IH.
Qed.

Lemma Forall2_right {A B : Type} (Q : B → Prop) (l : list A) (k : list B) :
  Forall2 (λ _ y, Q y) l k → Forall Q k.
Proof. induction 1; constructor; auto. Qed.

Lemma balance_of_fees (fa fp : Z) :
  0 ≤ clip_lower 0 (int64_sub fa fp)
  ∧ in_int64 (clip_lower 0 (int64_sub fa fp))
  ∧ clip_lower 0 (int64_sub fa fp) = Z.max 0 (int64_wrap (fa - fp))
  ∧ (in_int64 (fa - fp) → clip_lower 0 (int64_sub fa fp) = Z.max 0 (fa - fp))
  ∧ (in_int64 fa → in_int64 fp → 0 ≤ fa → 0 ≤ fp →
     clip_lower 0 (int64_sub fa fp) = Z.max 0 (fa - fp)).
Proof.
  unfold int64_sub. rewrite clip_lower_max.
  pose proof (int64_wrap_range (fa - fp)) as Hr.
  unfold in_int64, int64_min, int64_max in *.
  repeat split; try lia.
  - intros Hd. rewrite int64_wrap_small; [done|]. unfold in_int64,
      int64_min, int64_max. lia.
  - intros Ha Hp Hfa Hfp. rewrite int64_wrap_small; [done|].
    unfold in_int64, int64_min, int64_max. lia.
Qed.

Section recompute_properties.
Context `{Library}.

(** C1, as the code has it: when recompute returns, Fee Amount and Fee
    Paid hold the 64-bit integers that step 1 made of the two columns,
    and Balance is max(0, Fee Amount - Fee Paid) with the difference
    taken in 64-bit arithmetic, which wraps around; it is
    max(0, Fee Amount - Fee Paid) whenever the difference fits in 64
    bits, as it does when neither fee is negative. *)
Theorem balance_is_max_of_difference today df df' :
  _recalculate_business_rules today df = Some df' →
  ∃ fas fps,
    int_column (map Fee_Amount df) = Some fas
    ∧ int_column (map Fee_Paid df) = Some fps
    ∧ length df' = length df
    ∧ ∀ i r', df' !! i = Some r' →
        ∃ fa fp,
          fas !! i = Some fa ∧ fps !! i = Some fp
          ∧ Fee_Amount r' = Num fa ∧ Fee_Paid r' = Num fp
          ∧ Balance r' = Num (Z.max 0 (int64_wrap (fa - fp)))
          ∧ (in_int64 (fa - fp) → Balance r' = Num (Z.max 0 (fa - fp)))
          ∧ (0 ≤ fa → 0 ≤ fp → Balance r' = Num (Z.max 0 (fa - fp))).
Proof.
  intros Hdone.
  apply recalculate_Some in Hdone
    as (fas & fps & Hfa & Hfp & Hla & Hlp & Hra & Hrp & ->).
  exists fas, fps. split; [done|]. split; [done|].
  split; [by apply finish_rows_length|].
  intros i r' Hr'.
  apply finish_rows_lookup_inv in Hr' as (fa & fp & r & Ha & Hp & _ & ->).
  exists fa, fp. simpl.
  assert (in_int64 fa) by exact (Forall_lookup_1 _ _ _ _ Hra Ha).
  assert (in_int64 fp) by exact (Forall_lookup_1 _ _ _ _ Hrp Hp).
  destruct (balance_of_fees fa fp) as (_ & _ & Hw & Hfit & Hpos).
  repeat split; try done.
  - by rewrite Hw.
  - intros Hd. by rewrite (Hfit Hd).
  - intros Hfa' Hfp'. by rewrite Hpos.
Qed.

(** C3: recompute is idempotent: a second pass with the same current
    date returns the table of the first pass. *)
Theorem recompute_idempotent today df :
  _recalculate_business_rules today df ≫= _recalculate_business_rules today
  = _recalculate_business_rules today df.
Proof.
  destruct (_recalculate_business_rules today df) as [df'|] eqn:Hdone;
    simpl; [|done].
  exact (recalculate_fixed _ _ _ _ Hdone).
Qed.

(** X5: The second pass may even run on a later day. *)
Lemma recompute_idempotent_any_day today today' df :
  _recalculate_business_rules today df ≫= _recalculate_business_rules today'
  = _recalculate_business_rules today df.
Proof.
  destruct (_recalculate_business_rules today df) as [df'|] eqn:Hdone;
    simpl; [|done].
  exact (recalculate_fixed _ _ _ _ Hdone).
Qed.

(** C4: a record whose computed Balance is 0 and whose Fee Paid On is
    not empty keeps its Fee Paid On; a record whose computed Balance is
    positive keeps its Due Date. *)
Theorem recompute_keeps_paid_on_and_due_date today df df' :
  _recalculate_business_rules today df = Some df' →
  Forall2 (λ r r',
      (Balance r' = Num 0 → is_empty (Fee_Paid_On r) = false →
       Fee_Paid_On r' = Fee_Paid_On r)
      ∧ (∀ b, Balance r' = Num b → 0 < b → Due_Date r' = Due_Date r))
    df df'.
Proof.
  intros Hdone. apply (recalculate_Forall2 _ _ _ _ Hdone).
  intros fa fp r _ _; simpl. split.
  - intros Hbal Hne. injection Hbal as ->. simpl.
    by rewrite (truthy_not_empty _ Hne).
  - intros b Hb Hpos. injection Hb as Hb. rewrite Hb.
    destruct (Z.eqb_spec b 0); [lia|done].
Qed.

(** C10: recompute keeps the number of records and their order, and in
    every record the cells Name, Mobile Number, Year, Dept and Email. *)
Theorem recompute_frame today df df' :
  _recalculate_business_rules today df = Some df' →
  length df' = length df
  ∧ Forall2 (λ r r',
        Name r' = Name r ∧ Mobile_Number r' = Mobile_Number r
        ∧ Year r' = Year r ∧ Dept r' = Dept r ∧ Email r' = Email r)
      df df'.
Proof.
  intros Hdone.
  assert (HF : Forall2 (λ r r',
        Name r' = Name r ∧ Mobile_Number r' = Mobile_Number r
        ∧ Year r' = Year r ∧ Dept r' = Dept r ∧ Email r' = Email r)
      df df').
  { apply (recalculate_Forall2 _ _ _ _ Hdone). intros fa fp r _ _. done. }
  split; [|done]. symmetry. by eapply Forall2_length.
Qed.

(** A recomputed record meets the invariants of the data model unless
    it is fully paid and its Fee Paid On cell was NaN. *)
Lemma paid_invariants_iff today fa fp r :
  paid_invariants (finish_row today fa fp r)
  ↔ ¬ (Balance (finish_row today fa fp r) = Num 0 ∧ Fee_Paid_On r = TextNaN).
Proof.
  unfold paid_invariants, finish_row; simpl.
  destruct (balance_of_fees fa fp) as (Hge & _).
  destruct (Z.eqb_spec (clip_lower 0 (int64_sub fa fp)) 0) as [Hz|Hnz].
  - rewrite Hz. destruct (Fee_Paid_On r) as [[|c s]|] eqn:Hp; simpl.
    + rewrite today_not_empty. split.
      * intros _ [_ ?]; discriminate.
      * intros _. split; split; try done; try lia.
    + split.
      * intros _ [_ ?]; discriminate.
      * intros _. split; split; try done; try lia.
    + split.
      * intros [[Hi _] _] _. destruct (Hi eq_refl) as [_ ?]; discriminate.
      * intros Hn. destruct Hn. done.
  - split.
    + intros _ [Hb _]. injection Hb as Hb. lia.
    + intros _. split; split; try done; try lia.
      intros [_ ?]; discriminate.
Qed.

(** X4: Every record whose Fee Paid On cell held text, empty or not, meets
    the invariants after recompute. *)
Lemma paid_invariants_of_text today df df' :
  _recalculate_business_rules today df = Some df' →
  Forall2 (λ r r', Fee_Paid_On r ≠ TextNaN → paid_invariants r') df df'.
Proof.
  intros Hdone. apply (recalculate_Forall2 _ _ _ _ Hdone).
  intros fa fp r _ _ Htext.
  apply paid_invariants_iff. intros [_ Hnan]. done.
Qed.

Lemma in_int64_5000 : in_int64 5000.
Proof. unfold in_int64, int64_min, int64_max. lia. Qed.

(** C2: the code leaves a NaN Fee Paid On as it is when the balance is
    zero, so that the recomputed record has Balance 0 and an empty
    Fee Paid On: neither biconditional of the data model holds for it. *)
Theorem nan_paid_on_is_left_blank today :
  ∃ r', _recalculate_business_rules today [nan_paid_row] = Some [r']
        ∧ Balance r' = Num 0
        ∧ Fee_Paid_On r' = TextNaN
        ∧ is_empty (Due_Date r') = true
        ∧ is_empty (Fee_Paid_On r') = true
        ∧ ¬ paid_invariants r'.
Proof.
  exists (finish_row today 5000 5000 nan_paid_row).
  split.
  { rewrite recalculate_unfold.
    change (map Fee_Amount [nan_paid_row]) with (map Num [5000]).
    change (map Fee_Paid [nan_paid_row]) with (map Num [5000]).
    rewrite (int_column_ints [5000]); [done|].
    constructor; [apply in_int64_5000|constructor]. }
  repeat split; try reflexivity.
  intros [[Hi _] _]. destruct (Hi eq_refl) as [_ ?]; discriminate.
Qed.

Lemma int_column_converted col zs i c a :
  int_column col = Some zs → col !! i = Some c → zs !! i = Some a →
  fee_cell_converted c a.
Proof.
  intros Hcol Hc Ha. split; [|split; [|split]].
  - exact (Forall_lookup_1 _ _ _ _ (int_column_range _ _ Hcol) Ha).
  - intros Hnan. pose proof (int_column_missing _ _ _ _ Hcol Hc Hnan).
    congruence.
  - intros n d Hv Hsmall.
    pose proof (int_column_finite _ _ _ _ _ _ Hcol Hc Hv Hsmall). congruence.
  - intros negative Hv.
    pose proof (int_column_infinite _ _ _ _ Hc Hv). congruence.
Qed.



(** X1: The Balance a table comes with is never read: whatever it holds,
    recompute gives the same table. *)
Theorem recompute_ignores_stored_balance today (f : row → num_cell) df :
  _recalculate_business_rules today (map (λ r, set_Balance (f r) r) df)
  = _recalculate_business_rules today df.
Proof.
  rewrite !recalculate_unfold, !map_map. simpl.
  destruct (int_column (map Fee_Amount df)); [|done].
  destruct (int_column (map Fee_Paid df)); [|done].
  by rewrite finish_rows_ignore_balance.
Qed.

(** X2: The recomputed Balance is never negative; when neither fee is
    negative it is zero exactly when the amount paid reaches the fee,
    and the difference otherwise. *)
Theorem balance_zero_iff_paid_up today df df' :
  _recalculate_business_rules today df = Some df' →
  Forall (λ r',
      ∃ fa fp b, Fee_Amount r' = Num fa ∧ Fee_Paid r' = Num fp
           ∧ Balance r' = Num b ∧ 0 ≤ b
           ∧ (0 ≤ fa → 0 ≤ fp →
              (b = 0 ↔ fa ≤ fp) ∧ (b ≠ 0 → b = fa - fp)))
    df'.
Proof.
  intros Hdone. apply (Forall2_right _ df).
  apply (recalculate_Forall2 _ _ _ _ Hdone).
  intros fa fp r Ha Hp; simpl. eexists fa, fp, _.
  repeat split; try reflexivity;
    destruct (balance_of_fees fa fp) as (Hge & _ & _ & _ & Hpos);
    try done; rewrite (Hpos Ha Hp) by done; lia.
Qed.

(** X3: What recompute writes in the two date fields follows the
    Balance it has computed: with Balance 0 the record loses its Due
    Date and gets the day's date unless its Fee Paid On was truthy; with
    a Balance left it keeps its Due Date and loses its Fee Paid On. *)
Theorem recompute_date_fields today df df' :
  _recalculate_business_rules today df = Some df' →
  Forall2 (λ r r',
      if decide (Balance r' = Num 0)
      then Due_Date r' = Text ""
           ∧ Fee_Paid_On r'
             = (if truthy (Fee_Paid_On r) then Fee_Paid_On r
                else Text (today_str today))
      else Due_Date r' = Due_Date r ∧ Fee_Paid_On r' = Text "")
    df df'.
Proof.
  intros Hdone. apply (recalculate_Forall2 _ _ _ _ Hdone).
  intros fa fp r _ _; simpl.
  destruct (Z.eqb_spec (clip_lower 0 (int64_sub fa fp)) 0) as [Hz|Hnz].
  - rewrite Hz. by rewrite decide_True.
  - rewrite decide_False; [done|]. intros [= ?]. done.
Qed.

End recompute_properties.

(** ** Recompute on the sample records *)

Lemma three_rows_recomputed :
  _recalculate_business_rules (H := small_library) sample_day three_rows
  = Some stable_rows.
Proof. vm_compute. reflexivity. Qed.

Lemma balance_is_max_of_difference_witness :
  ∃ r', stable_rows !! 0%nat = Some r'
        ∧ Balance r' = Num (Z.max 0 (5000 - 2000)).
Proof.
  destruct (@balance_is_max_of_difference small_library sample_day
              three_rows stable_rows ltac:(vm_compute; reflexivity))
    as (fas & fps & _ & _ & _ & Hrows).
  eexists. split; [reflexivity|].
  destruct (Hrows 0%nat _ eq_refl) as (fa & fp & _ & _ & Hfa & Hfp & _ & _ & Hb).
  simpl in Hfa, Hfp. injection Hfa as <-. injection Hfp as <-.
  apply Hb; lia.
Defined.

(** C1, the counterexample: on 64-bit integers the difference
    9223372036854775807 - (-1) wraps around to the least 64-bit integer,
    and the Balance is 0, not max(0, Fee Amount - Fee Paid). *)
Lemma balance_wraps_around :
  ∃ r', _recalculate_business_rules (H := small_library) sample_day
          [overflow_row] = Some [r']
        ∧ Fee_Amount r' = Num 9223372036854775807
        ∧ Fee_Paid r' = Num (-1)
        ∧ Balance r' = Num 0
        ∧ Balance r' ≠ Num (Z.max 0 (9223372036854775807 - (-1))).
Proof.
  eexists. split; [vm_compute; reflexivity|].
  repeat split; try reflexivity. simpl. intros [= ?].
Qed.

Lemma recompute_keeps_paid_on_and_due_date_witness :
  ∃ r1 r2, stable_rows !! 0%nat = Some r1 ∧ stable_rows !! 1%nat = Some r2
           ∧ Due_Date r1 = Due_Date sample_row
           ∧ Fee_Paid_On r2 = Fee_Paid_On paid_row.
Proof.
  pose proof (@recompute_keeps_paid_on_and_due_date small_library sample_day
                three_rows stable_rows ltac:(vm_compute; reflexivity)) as Hall.
  eexists _, _. split; [reflexivity|]. split; [reflexivity|]. split.
  - destruct (Forall2_lookup_lr _ _ _ 0%nat _ _ Hall eq_refl eq_refl)
      as [_ Hdue].
    apply (Hdue 3000); [reflexivity|lia].
  - destruct (Forall2_lookup_lr _ _ _ 1%nat _ _ Hall eq_refl eq_refl)
      as [Hpaid _].
    apply Hpaid; reflexivity.
Defined.

Lemma recompute_frame_witness :
  length stable_rows = 3%nat
  ∧ ∃ r', stable_rows !! 2%nat = Some r' ∧ Name r' = Text "Ravi"
          ∧ Email r' = Text "ravi@example.com".
Proof.
  destruct (@recompute_frame small_library sample_day three_rows stable_rows
              ltac:(vm_compute; reflexivity)) as [Hlen Hall].
  split; [exact Hlen|].
  eexists. split; [reflexivity|].
  destruct (Forall2_lookup_lr _ _ _ 2%nat _ _ Hall eq_refl eq_refl)
    as (Hname & _ & _ & _ & Hmail).
  split; [exact Hname|exact Hmail].
Defined.

Lemma paid_invariants_of_text_witness :
  ∃ r', stable_rows !! 2%nat = Some r' ∧ paid_invariants r'.
Proof.
  pose proof (@paid_invariants_of_text small_library sample_day three_rows
                stable_rows ltac:(vm_compute; reflexivity)) as Hall.
  eexists. split; [reflexivity|].
  apply (Forall2_lookup_lr _ _ _ 2%nat _ _ Hall eq_refl eq_refl).
  discriminate.
Defined.

Lemma balance_zero_iff_paid_up_witness :
  ∃ r', stable_rows !! 0%nat = Some r' ∧ ∃ b, Balance r' = Num b ∧ b ≠ 0.
Proof.
  pose proof (@balance_zero_iff_paid_up small_library sample_day three_rows
                stable_rows ltac:(vm_compute; reflexivity)) as Hall.
  eexists. split; [reflexivity|].
  destruct (Forall_lookup_1 _ _ 0%nat _ Hall eq_refl)
    as (fa & fp & b & Hfa & Hfp & Hb & _ & Hpos).
  simpl in Hfa, Hfp. injection Hfa as <-. injection Hfp as <-.
  exists b. split; [exact Hb|].
  destruct Hpos as [Hzero _]; [lia|lia|]. lia.
Defined.

Lemma recompute_date_fields_witness :
  ∃ r', stable_rows !! 2%nat = Some r'
        ∧ Due_Date r' = Text "" ∧ Fee_Paid_On r' = Text "2025-03-01".
Proof.
  pose proof (@recompute_date_fields small_library sample_day three_rows
                stable_rows ltac:(vm_compute; reflexivity)) as Hall.
  eexists. split; [reflexivity|].
  exact (Forall2_lookup_lr _ _ _ 2%nat _ _ Hall eq_refl eq_refl).
Defined.


(** The number 12.5 written as text becomes 12, text that is no number
    becomes 0, and the text of an infinity makes recompute raise. *)
Example decimal_text_is_truncated :
  ∃ r', _recalculate_business_rules (H := small_library) sample_day
          [decimal_row] = Some [r']
        ∧ Fee_Amount r' = Num 12 ∧ Fee_Paid r' = Num 0
        ∧ Balance r' = Num 12.
Proof. eexists. split; [vm_compute; reflexivity|]. done. Qed.

Example infinite_text_raises :
  _recalculate_business_rules (H := small_library) sample_day
    [sample_row; infinite_row] = None.
Proof. vm_compute. reflexivity. Qed.


(** ** Tables whose fees are integers *)

Lemma map_fixed_Forall {A : Type} (f : A → A) (l : list A) :
  map f l = l ↔ Forall (λ x, f x = x) l.
Proof.
  induction l as [|x l IH]; simpl.
  - split; [constructor|done].
  - split.
    + intros [= Hx Hl]. constructor; [done|by apply IH].
    + intros Hall. inversion Hall as [|? ? Hx Hl]; subst.
      rewrite Hx. f_equal. by apply IH.
Qed.

Lemma spin_value_range (s : QSpinBox) : 0 ≤ spin_value s ≤ 10000000.
Proof. destruct s as [v Hv]. simpl. by apply bool_decide_unpack in Hv. Qed.

Lemma spin_value_int64 (s : QSpinBox) : in_int64 (spin_value s).
Proof.
  pose proof (spin_value_range s).
  unfold in_int64, int64_min, int64_max. lia.
Qed.

Section int_fee_facts.
Context `{Library}.

Lemma recalculate_recomputed today df df' :
  _recalculate_business_rules today df = Some df' →
  Forall2 (recomputed today) df df'.
Proof.
  intros Hdone.
  apply recalculate_Some in Hdone
    as (fas & fps & Hfa & Hfp & Hla & Hlp & Hra & Hrp & ->).
  apply Forall2_same_length_lookup. split.
  { by rewrite finish_rows_length. }
  intros i r r' Hr Hr'.
  apply finish_rows_lookup_inv in Hr' as (fa & fp & r0 & Ha & Hp & Hr0 & ->).
  assert (r0 = r) as -> by congruence.
  exists fa, fp. split; [|split; [|done]].
  - apply (int_column_converted _ _ i _ _ Hfa); [|done].
    by rewrite lookup_map, Hr.
  - apply (int_column_converted _ _ i _ _ Hfp); [|done].
    by rewrite lookup_map, Hr.
Qed.

Lemma int_fees_columns df :
  Forall int_fees df →
  map Fee_Amount df = map Num (map (λ r, int_value (Fee_Amount r)) df)
  ∧ map Fee_Paid df = map Num (map (λ r, int_value (Fee_Paid r)) df)
  ∧ Forall in_int64 (map (λ r, int_value (Fee_Amount r)) df)
  ∧ Forall in_int64 (map (λ r, int_value (Fee_Paid r)) df).
Proof.
  induction 1 as [|r df (fa & fp & Ha & Hp & Hia & Hip) _ (IH1 & IH2 & IH3 & IH4)];
    simpl.
  - repeat split; constructor.
  - rewrite Ha, Hp, <- IH1, <- IH2. simpl.
    repeat split; try done; by constructor.
Qed.

Lemma finish_rows_map today df :
  finish_rows today (map (λ r, int_value (Fee_Amount r)) df)
              (map (λ r, int_value (Fee_Paid r)) df) df
  = map (recompute_row today) df.
Proof. induction df as [|r df IH]; simpl; [done|]. by rewrite IH. Qed.

(** On a table whose fees are integers recompute works record by
    record, and returns. *)
Lemma recalc_int_fees today df :
  Forall int_fees df →
  _recalculate_business_rules today df = Some (map (recompute_row today) df).
Proof.
  intros Hint. destruct (int_fees_columns df Hint) as (Ha & Hp & Hia & Hip).
  rewrite recalculate_unfold, Ha, Hp.
  rewrite (int_column_ints _ Hia), (int_column_ints _ Hip).
  by rewrite finish_rows_map.
Qed.

Lemma int_fees_finish_row today fa fp r :
  in_int64 fa → in_int64 fp → int_fees (finish_row today fa fp r).
Proof. intros Ha Hp. by exists fa, fp. Qed.

Lemma row_stable_finish_row today fa fp r :
  in_int64 fa → in_int64 fp → row_stable (finish_row today fa fp r).
Proof.
  intros Ha Hp. split; [by apply int_fees_finish_row|].
  intros today'. apply finish_row_idem.
Qed.

Lemma finish_rows_int_fees today fas fps df :
  Forall in_int64 fas → Forall in_int64 fps →
  Forall int_fees (finish_rows today fas fps df).
Proof.
  revert fas fps. induction df as [|r df IH]; intros [|fa fas] [|fp fps];
    simpl; try constructor.
  - apply int_fees_finish_row; by eapply Forall_inv.
  - apply IH; by eapply Forall_inv_tail.
Qed.

Lemma stable_Forall df : stable df ↔ Forall row_stable df.
Proof.
  split.
  - intros Hst.
    assert (Hint : Forall int_fees df).
    { destruct (stable_columns (mk_date 1 1 1) df Hst)
        as (fas & fps & _ & _ & _ & _ & Hia & Hip & Hdf).
      rewrite Hdf. by apply finish_rows_int_fees. }
    apply Forall_forall. intros r Hr. split.
    + revert r Hr. by apply Forall_forall.
    + intros today. pose proof (Hst today) as Hrun.
      rewrite (recalc_int_fees today df Hint) in Hrun.
      injection Hrun as Hrun. apply map_fixed_Forall in Hrun.
      revert r Hr. by apply Forall_forall.
  - intros Hall today. rewrite recalc_int_fees.
    + f_equal. apply map_fixed_Forall.
      eapply Forall_impl; [exact Hall|]. intros r [_ Hr]. apply Hr.
    + eapply Forall_impl; [exact Hall|]. by intros r [Hr _].
Qed.

Lemma stable_int_fees df : stable df → Forall int_fees df.
Proof.
  intros Hst. apply stable_Forall in Hst.
  eapply Forall_impl; [exact Hst|]. by intros r [Hr _].
Qed.

Lemma stable_delete df i : stable df → stable (delete i df).
Proof. rewrite !stable_Forall. apply Forall_delete. Qed.

Lemma recompute_dialog_row today w :
  recompute_row today (get_data today w) = dialog_row today w.
Proof.
  unfold recompute_row, get_data, dialog_row, finish_row; simpl.
  pose proof (spin_value_range (w_Fee_Amount w)).
  pose proof (spin_value_range (w_Fee_Paid w)).
  destruct (balance_of_fees (spin_value (w_Fee_Amount w))
              (spin_value (w_Fee_Paid w))) as (_ & _ & _ & Hfit & _).
  rewrite Hfit by (unfold in_int64, int64_min, int64_max; lia).
  destruct (Z.eqb_spec (Z.max 0 (spin_value (w_Fee_Amount w)
                                 - spin_value (w_Fee_Paid w))) 0)
    as [Hz|Hnz]; [|done].
  f_equal.
  destruct (Z.eqb_spec (spin_value (w_Fee_Amount w)
                        - spin_value (w_Fee_Paid w)) 0); [|done].
  by destruct (today_str today).
Qed.

Lemma int_fees_get_data today w : int_fees (get_data today w).
Proof.
  eexists _, _. split; [reflexivity|]. split; [reflexivity|].
  split; apply spin_value_int64.
Qed.

Lemma row_stable_dialog_row today w : row_stable (dialog_row today w).
Proof.
  rewrite <- recompute_dialog_row.
  apply row_stable_finish_row; apply spin_value_int64.
Qed.

Lemma recalc_stable_app today df rec :
  stable df → int_fees rec →
  _recalculate_business_rules today (df ++ [rec])
  = Some (df ++ [recompute_row today rec]).
Proof.
  intros Hst Hrec. apply stable_Forall in Hst.
  rewrite recalc_int_fees.
  - rewrite map_app. simpl. f_equal. f_equal. apply map_fixed_Forall.
    eapply Forall_impl; [exact Hst|]. intros r [_ Hr]. apply Hr.
  - apply Forall_app. split; [|by repeat constructor].
    eapply Forall_impl; [exact Hst|]. by intros r [Hr _].
Qed.

Lemma recalc_stable_insert today df i rec :
  stable df → int_fees rec →
  _recalculate_business_rules today (<[i := rec]> df)
  = Some (<[i := recompute_row today rec]> df).
Proof.
  intros Hst Hrec. apply stable_Forall in Hst.
  rewrite recalc_int_fees.
  - f_equal.
    change (map (recompute_row today) (<[i:=rec]> df))
      with (recompute_row today <$> <[i:=rec]> df).
    rewrite list_fmap_insert. f_equal. apply map_fixed_Forall.
    eapply Forall_impl; [exact Hst|]. intros r [_ Hr]. apply Hr.
  - apply Forall_insert; [|done].
    eapply Forall_impl; [exact Hst|]. by intros r [Hr _].
Qed.

End int_fee_facts.

(** ** The store *)

Section store_facts.
Context `{Library}.

(** C5: [open_file] turns a frame away with the "Invalid format" box
    exactly when its header is not the strict list of ten names, in that
    order and spelling, and then stores nothing; a frame with the strict
    header goes on to recompute and is stored when recompute returns. *)
Theorem open_file_strict_header today path df fs :
  path ≠ "" →
  (open_file today path (Some df) fs = Dialog "Invalid format"
   ↔ columns df ≠ STRICT_COLUMNS)
  ∧ ((∃ fs', open_file today path (Some df) fs = Done fs')
     ↔ columns df = STRICT_COLUMNS
       ∧ is_Some (_recalculate_business_rules today (body df)))
  ∧ (columns df = STRICT_COLUMNS →
     open_file today path (Some df) fs
     = recompute_then today (body df) (λ df',
         Done (<[basename path := (path, df')]> fs)))
  ∧ (columns df ∈ [short_header; swapped_header; lowercase_header] →
     open_file today path (Some df) fs = Dialog "Invalid format").
Proof.
  intros Hpath. unfold open_file.
  rewrite (bool_decide_eq_false_2 _ Hpath).
  assert (Hrun : ∀ k : table → outcome (gmap string (string * table)),
            (∀ df', k df' ≠ Dialog "Invalid format") →
            recompute_then today (body df) k ≠ Dialog "Invalid format").
  { intros k Hk. unfold recompute_then.
    destruct (_recalculate_business_rules today (body df)); [apply Hk|done]. }
  destruct (decide (columns df = STRICT_COLUMNS)) as [Heq|Hne].
  - rewrite bool_decide_eq_false_2 by (intros Hne; done).
    split; [|split; [|split]].
    + split; [|done]. intros Hbox. exfalso. revert Hbox. by apply Hrun.
    + unfold recompute_then.
      destruct (_recalculate_business_rules today (body df)) as [df'|].
      * split; [by intros _; split; [|eexists]|]. intros _. by eexists.
      * split; [by intros [fs' ?]|]. by intros [_ [? ?]].
    + done.
    + intros Hin. exfalso. rewrite Heq in Hin. revert Hin. vm_compute.
      intros Hin.
      repeat (apply elem_of_cons in Hin as [Hin|Hin]; [discriminate|]).
      by apply elem_of_nil in Hin.
  - rewrite (bool_decide_eq_true_2 _ Hne).
    split; [|split; [|split]]; try done.
    split; [by intros [fs' ?]|]. by intros [? _].
Qed.

(** C9: deleting at a valid position hands the table without that
    record to recompute and stores what recompute returns: one record
    fewer, the records before the deleted one at their old positions and
    the ones after it one position down, each as recompute leaves it; a
    stable table simply loses the record. *)
Theorem delete_selected_removes_one today st name path df i :
  selected_name st = Some name →
  files st !! name = Some (path, df) →
  (i < length df)%nat →
  delete_selected today (Z.of_nat i) st
  = recompute_then today (take i df ++ drop (S i) df) (λ df',
      Done (mk_app (<[name := (path, df')]> (files st))
                   (Some name) (Some df')))
  ∧ (∀ df',
       _recalculate_business_rules today (take i df ++ drop (S i) df)
       = Some df' →
       delete_selected today (Z.of_nat i) st
       = Done (mk_app (<[name := (path, df')]> (files st))
                      (Some name) (Some df'))
       ∧ length df' = (length df - 1)%nat
       ∧ (∀ j r, (j < i)%nat → df !! j = Some r →
            ∃ r', df' !! j = Some r' ∧ recomputed today r r')
       ∧ (∀ j r, (i ≤ j)%nat → df !! S j = Some r →
            ∃ r', df' !! j = Some r' ∧ recomputed today r r'))
  ∧ (stable df →
     delete_selected today (Z.of_nat i) st
     = Done (mk_app (<[name := (path, take i df ++ drop (S i) df)]> (files st))
                    (Some name) (Some (take i df ++ drop (S i) df)))).
Proof.
  intros Hsel Hfile Hi.
  assert (Hrun : delete_selected today (Z.of_nat i) st
    = recompute_then today (take i df ++ drop (S i) df) (λ df',
        Done (mk_app (<[name := (path, df')]> (files st))
                     (Some name) (Some df')))).
  { unfold delete_selected. rewrite Hsel, Hfile.
    destruct (Z.ltb_spec (Z.of_nat i) 0) as [?|_]; [lia|].
    destruct (Z.leb_spec (Z.of_nat (length df)) (Z.of_nat i)) as [?|_]; [lia|].
    rewrite Nat2Z.id. unfold df_drop. by rewrite delete_take_drop. }
  split; [exact Hrun|]. split.
  - intros df' Hdone. rewrite Hrun. unfold recompute_then. rewrite Hdone.
    split; [done|].
    pose proof (recalculate_recomputed _ _ _ Hdone) as Hall.
    rewrite <- delete_take_drop in Hall.
    assert (Hlen : length df' = (length df - 1)%nat).
    { rewrite <- (Forall2_length _ _ _ Hall). apply length_delete.
      by apply lookup_lt_is_Some. }
    split; [exact Hlen|]. split.
    + intros j r Hj Hr.
      apply (Forall2_lookup_l _ _ _ j r Hall).
      by rewrite list_lookup_delete_lt.
    + intros j r Hj Hr.
      apply (Forall2_lookup_l _ _ _ j r Hall).
      by rewrite list_lookup_delete_ge.
  - intros Hst. rewrite Hrun. unfold recompute_then.
    rewrite <- delete_take_drop.
    by rewrite (stable_delete df i Hst today).
Qed.

(** X6: A table that recompute produced is not changed by the recompute
    that follows a deletion: recompute returns, and the remaining
    records stay as they are. *)
Lemma delete_of_recomputed today today0 df0 df i :
  _recalculate_business_rules today0 df0 = Some df →
  _recalculate_business_rules today (df_drop i df) = Some (df_drop i df).
Proof.
  intros Hdone. apply stable_delete. by eapply stable_recalc.
Qed.

(** X7: Adding a record to a stable table leaves the records of the table
    as they are and puts the record of the dialog, recomputed, at the
    end. *)
Theorem add_row_appends today w st name path df :
  selected_name st = Some name →
  files st !! name = Some (path, df) →
  stable df →
  add_row today (Some w) st
  = Done (mk_app (<[name := (path, df ++ [dialog_row today w])]> (files st))
                 (Some name) (Some (df ++ [dialog_row today w]))).
Proof.
  intros Hsel Hfile Hst. unfold add_row, recompute_then.
  rewrite Hsel, Hfile.
  rewrite (recalc_stable_app today df _ Hst (int_fees_get_data today w)).
  by rewrite recompute_dialog_row.
Qed.

Lemma recomputed_get_data today w r' :
  recomputed today (get_data today w) r' → r' = dialog_row today w.
Proof.
  intros (a & p & Hca & Hcp & ->). rewrite <- recompute_dialog_row.
  unfold recompute_row. simpl.
  destruct Hca as (_ & _ & Hfa & _). destruct Hcp as (_ & _ & Hfp & _).
  pose proof (spin_value_range (w_Fee_Amount w)).
  pose proof (spin_value_range (w_Fee_Paid w)).
  rewrite (Hfa (spin_value (w_Fee_Amount w)) 1%positive eq_refl)
    by (unfold trunc, exact_float_bound; rewrite Z.quot_1_r; lia).
  rewrite (Hfp (spin_value (w_Fee_Paid w)) 1%positive eq_refl)
    by (unfold trunc, exact_float_bound; rewrite Z.quot_1_r; lia).
  unfold trunc. by rewrite !Z.quot_1_r.
Qed.

(** X8: Editing a valid row with an accepted dialog hands the table with
    the record of the dialog at that position to recompute and stores
    what recompute returns: as many records as before, the recomputed
    record of the dialog at that position, and every other record as
    recompute leaves it; in a stable table the other records stay
    exactly as they were. *)
Theorem edit_selected_replaces_one today st name path df i w :
  selected_name st = Some name →
  files st !! name = Some (path, df) →
  (i < length df)%nat →
  edit_selected today (Z.of_nat i) (Some w) st
  = recompute_then today (<[i := get_data today w]> df) (λ df',
      Done (mk_app (<[name := (path, df')]> (files st))
                   (Some name) (Some df')))
  ∧ (∀ df',
       _recalculate_business_rules today (<[i := get_data today w]> df)
       = Some df' →
       length df' = length df
       ∧ df' !! i = Some (dialog_row today w)
       ∧ (∀ j r, j ≠ i → df !! j = Some r →
            ∃ r', df' !! j = Some r' ∧ recomputed today r r'))
  ∧ (stable df →
     edit_selected today (Z.of_nat i) (Some w) st
     = Done (mk_app (<[name := (path, <[i := dialog_row today w]> df)]>
                       (files st))
                    (Some name) (Some (<[i := dialog_row today w]> df)))).
Proof.
  intros Hsel Hfile Hi.
  assert (Hrun : edit_selected today (Z.of_nat i) (Some w) st
    = recompute_then today (<[i := get_data today w]> df) (λ df',
        Done (mk_app (<[name := (path, df')]> (files st))
                     (Some name) (Some df')))).
  { unfold edit_selected. rewrite Hsel, Hfile.
    destruct (Z.ltb_spec (Z.of_nat i) 0) as [?|_]; [lia|].
    destruct (Z.leb_spec (Z.of_nat (length df)) (Z.of_nat i)) as [?|_]; [lia|].
    by rewrite Nat2Z.id. }
  split; [exact Hrun|]. split.
  - intros df' Hdone.
    pose proof (recalculate_recomputed _ _ _ Hdone) as Hall.
    split; [|split].
    + rewrite <- (Forall2_length _ _ _ Hall). apply length_insert.
    + destruct (Forall2_lookup_l _ _ _ i (get_data today w) Hall)
        as (r' & Hr' & Hrec); [by apply list_lookup_insert_eq|].
      by rewrite Hr', (recomputed_get_data _ _ _ Hrec).
    + intros j r Hj Hr. apply (Forall2_lookup_l _ _ _ j r Hall).
      by rewrite list_lookup_insert_ne.
  - intros Hst. rewrite Hrun. unfold recompute_then.
    rewrite (recalc_stable_insert today df i _ Hst (int_fees_get_data today w)).
    by rewrite recompute_dialog_row.
Qed.

(** X9: The row number is checked before anything is changed: with no file
    selected the handlers of edit and delete warn, with no row selected
    they warn, and a row number past the table raises [IndexError]. *)
Theorem row_number_is_checked today st dlg i :
  (selected_name st = None →
   delete_selected today i st = Dialog "No file"
   ∧ edit_selected today i dlg st = Dialog "No file")
  ∧ (∀ name, selected_name st = Some name → i < 0 →
     delete_selected today i st = Dialog "Select"
     ∧ edit_selected today i dlg st = Dialog "Select")
  ∧ (∀ name path df, selected_name st = Some name →
     files st !! name = Some (path, df) → Z.of_nat (length df) ≤ i →
     delete_selected today i st = Raised "IndexError"
     ∧ edit_selected today i dlg st = Raised "IndexError").
Proof.
  unfold delete_selected, edit_selected. split; [|split].
  - intros ->. done.
  - intros name -> Hi.
    by destruct (Z.ltb_spec i 0) as [_|?]; [|lia].
  - intros name path df -> -> Hi.
    destruct (Z.ltb_spec i 0) as [?|_]; [lia|].
    by destruct (Z.leb_spec (Z.of_nat (length df)) i) as [_|?]; [|lia].
Qed.

(** X10: Saving a stable table changes nothing in memory, and a failed write
    ends in the error box. *)
Theorem save_current_keeps_memory today st name path df :
  selected_name st = Some name →
  files st !! name = Some (path, df) →
  stable df →
  save_current today true st = Done st
  ∧ save_current today false st = Dialog "Error".
Proof.
  intros Hsel Hfile Hst. unfold save_current, recompute_then.
  rewrite Hsel, Hfile, (Hst today).
  split; [|done]. rewrite (insert_id _ _ _ Hfile), <- Hsel.
  by destruct st.
Qed.

(** X11: A table is kept under the base name of its file: after [open_file]
    or [create_new_file] went through, that name leads to the new path
    with the recomputed sheet, or with no record for a new file, in
    place of whatever was open under the same base name; every other
    open table is untouched. *)
Theorem store_slot_is_the_base_name today path fs :
  (∀ df fs', open_file today path (Some df) fs = Done fs' →
     ∃ df', _recalculate_business_rules today (body df) = Some df'
            ∧ fs' !! basename path = Some (path, df')
            ∧ ∀ name, name ≠ basename path → fs' !! name = fs !! name)
  ∧ (∀ written fs', create_new_file path written fs = Done fs' →
     fs' !! basename path = Some (path, [])
     ∧ ∀ name, name ≠ basename path → fs' !! name = fs !! name).
Proof.
  split.
  - intros df fs'. unfold open_file, recompute_then.
    destruct (bool_decide (path = "")); [done|].
    destruct (bool_decide (columns df ≠ STRICT_COLUMNS)); [done|].
    destruct (_recalculate_business_rules today (body df)) as [df'|]; [|done].
    intros [= <-]. exists df'. split; [done|].
    split; [apply lookup_insert_eq|].
    intros name Hne. by apply lookup_insert_ne.
  - intros written fs'. unfold create_new_file.
    destruct (bool_decide (path = "")); [done|].
    destruct written; [|done]. simpl.
    intros [= <-]. split; [apply lookup_insert_eq|].
    intros name Hne. by apply lookup_insert_ne.
Qed.

Lemma consistent_insert fs name path df :
  consistent fs → stable df → consistent (<[name := (path, df)]> fs).
Proof. intros Hfs Hdf. by apply map_Forall_insert_2. Qed.

Lemma recompute_then_stores today df name path st st' :
  consistent (files st) →
  recompute_then today df (λ df',
    Done (mk_app (<[name := (path, df')]> (files st))
                 (Some name) (Some df'))) = Done st' →
  consistent (files st').
Proof.
  intros Hok. unfold recompute_then.
  destruct (_recalculate_business_rules today df) as [df'|] eqn:Hdone; [|done].
  intros [= <-]. simpl. apply consistent_insert; [done|].
  by eapply stable_recalc.
Qed.

(** X12: Every handler keeps the store consistent: when all open tables are
    stable before a handler runs, they are afterwards. *)
Theorem handlers_keep_the_store_consistent today st :
  consistent (files st) →
  (∀ path read fs', open_file today path read (files st) = Done fs' →
     consistent fs')
  ∧ (∀ path written fs',
       create_new_file path written (files st) = Done fs' → consistent fs')
  ∧ (∀ dlg st', add_row today dlg st = Done st' → consistent (files st'))
  ∧ (∀ i dlg st', edit_selected today i dlg st = Done st' →
       consistent (files st'))
  ∧ (∀ i st', delete_selected today i st = Done st' → consistent (files st'))
  ∧ (∀ written st', save_current today written st = Done st' →
       consistent (files st'))
  ∧ (∀ text st', apply_search text st = Done st' → consistent (files st'))
  ∧ (∀ mon yr st', apply_date_filter mon yr st = Done st' →
       consistent (files st'))
  ∧ (∀ st', clear_filters st = Done st' → consistent (files st'))
  ∧ (∀ name st', on_select_file name st = Done st' → consistent (files st')).
Proof.
  intros Hok. repeat split.
  - intros path read fs'. unfold open_file, recompute_then.
    destruct (bool_decide (path = "")); [done|].
    destruct read as [df|]; [|done].
    destruct (bool_decide (columns df ≠ STRICT_COLUMNS)); [done|].
    destruct (_recalculate_business_rules today (body df)) as [df'|] eqn:Hdone;
      [|done].
    intros [= <-]. apply consistent_insert; [done|by eapply stable_recalc].
  - intros path written fs'. unfold create_new_file.
    destruct (bool_decide (path = "")); [done|].
    destruct written; [|done]. simpl.
    intros [= <-]. apply consistent_insert; [done|apply stable_nil].
  - intros dlg st'. unfold add_row.
    destruct (selected_name st); [|done]. destruct dlg; [|done].
    destruct (files st !! s) as [[path df]|]; [|done].
    by apply recompute_then_stores.
  - intros i dlg st'. unfold edit_selected.
    destruct (selected_name st); [|done]. destruct (i <? 0); [done|].
    destruct (files st !! s) as [[path df]|]; [|done].
    destruct (Z.of_nat (length df) <=? i); [done|].
    destruct dlg; [|done].
    by apply recompute_then_stores.
  - intros i st'. unfold delete_selected.
    destruct (selected_name st); [|done]. destruct (i <? 0); [done|].
    destruct (files st !! s) as [[path df]|]; [|done].
    destruct (Z.of_nat (length df) <=? i); [done|].
    by apply recompute_then_stores.
  - intros written st'. unfold save_current, recompute_then.
    destruct (selected_name st); [|done].
    destruct (files st !! s) as [[path df]|]; [|done].
    destruct (_recalculate_business_rules today df) as [df'|] eqn:Hdone;
      [|done].
    destruct written; [|done].
    intros [= <-]. simpl. apply consistent_insert; [done|].
    by eapply stable_recalc.
  - intros text st'. unfold apply_search.
    destruct (selected_name st); [|done].
    destruct (files st !! s) as [[path df]|]; [|done].
    destruct (bool_decide _); [by intros [= <-]|].
    destruct (negb _); [done|]. by intros [= <-].
  - intros mon yr st'. unfold apply_date_filter.
    destruct (selected_name st); [|done].
    destruct (files st !! s) as [[path df]|]; [|done].
    destruct (to_datetime_column (map Due_Date df)); [|done].
    destruct (bool_decide (mon ≠ "All")); [destruct (py_int mon)|];
      try done;
      (destruct (bool_decide (str_strip yr ≠ ""));
       [destruct (py_int (str_strip yr))|]; try done; by intros [= <-]).
  - intros st'. unfold clear_filters.
    destruct (selected_name st); [|done].
    destruct (files st !! s) as [[path df]|]; [|done]. by intros [= <-].
  - intros name st'. unfold on_select_file.
    destruct (bool_decide (name = "")); [done|].
    destruct (files st !! name) as [[path df]|]; [|done]. by intros [= <-].
Qed.

End store_facts.

(** ** The dialog *)

Section dialog_facts.
Context `{Library}.

Lemma recalc_dialog today w :
  _recalculate_business_rules today [get_data today w]
  = Some [dialog_row today w].
Proof.
  rewrite recalc_int_fees by (repeat constructor; apply int_fees_get_data).
  simpl. by rewrite recompute_dialog_row.
Qed.

(** X13: Whatever the widgets hold, the record of the dialog leaves recompute
    with the clipped balance, its date fields set by the balance alone,
    and the invariants of the data model: the raw difference and the
    empty paid-on date that [get_data] gives for an overpaid fee do not
    reach the store. *)
Theorem dialog_record_after_recompute today w :
  _recalculate_business_rules today [get_data today w]
  = Some [dialog_row today w]
  ∧ paid_invariants (dialog_row today w).
Proof.
  split; [apply recalc_dialog|]. rewrite <- recompute_dialog_row.
  apply paid_invariants_iff. intros [_ ?]. discriminate.
Qed.

(** X14: The balance and the paid-on date that the dialog shows are the ones
    the table shows once the record is stored. *)
Theorem dialog_preview_is_what_is_stored today w :
  ∃ stored,
    _recalculate_business_rules today [get_data today w] = Some [stored]
    ∧ display_num (Balance stored) = w_Balance (_update_balance_field today w)
    ∧ display_text (Fee_Paid_On stored)
      = w_Fee_Paid_On (_update_balance_field today w).
Proof.
  exists (dialog_row today w). split; [apply recalc_dialog|].
  unfold dialog_row, _update_balance_field; simpl.
  split; [done|].
  by destruct (Z.max 0 (spin_value (w_Fee_Amount w)
                        - spin_value (w_Fee_Paid w)) =? 0).
Qed.

(** X15: Editing a record so that it is paid up stamps the day of the edit as
    its Fee Paid On, whatever date the record carried before; on a
    stable table the edit goes through. *)
Theorem edit_of_paid_record_stamps_today today st name path df i w :
  selected_name st = Some name →
  files st !! name = Some (path, df) →
  (i < length df)%nat →
  spin_value (w_Fee_Amount w) ≤ spin_value (w_Fee_Paid w) →
  (∀ st', edit_selected today (Z.of_nat i) (Some w) st = Done st' →
     ∃ df' r',
       files st' !! name = Some (path, df')
       ∧ df' !! i = Some r'
       ∧ Balance r' = Num 0
       ∧ Due_Date r' = Text ""
       ∧ Fee_Paid_On r' = Text (today_str today))
  ∧ (stable df →
     ∃ st', edit_selected today (Z.of_nat i) (Some w) st = Done st').
Proof.
  intros Hsel Hfile Hi Hpaid.
  assert (Hrun : edit_selected today (Z.of_nat i) (Some w) st
    = recompute_then today (<[i := get_data today w]> df) (λ df',
        Done (mk_app (<[name := (path, df')]> (files st))
                     (Some name) (Some df')))).
  { unfold edit_selected. rewrite Hsel, Hfile.
    destruct (Z.ltb_spec (Z.of_nat i) 0) as [?|_]; [lia|].
    destruct (Z.leb_spec (Z.of_nat (length df)) (Z.of_nat i)) as [?|_]; [lia|].
    by rewrite Nat2Z.id. }
  rewrite Hrun. unfold recompute_then. split.
  - intros st'.
    destruct (_recalculate_business_rules today (<[i:=get_data today w]> df))
      as [df'|] eqn:Hdone; [|done].
    intros [= <-]. exists df', (dialog_row today w).
    split; [apply lookup_insert_eq|].
    pose proof (recalculate_recomputed _ _ _ Hdone) as Hall.
    destruct (Forall2_lookup_l _ _ _ i (get_data today w) Hall)
      as (r' & Hr' & Hrec); [by apply list_lookup_insert_eq|].
    rewrite (recomputed_get_data _ _ _ Hrec) in Hr'.
    split; [done|]. unfold dialog_row; simpl.
    replace (Z.max 0 (spin_value (w_Fee_Amount w)
                      - spin_value (w_Fee_Paid w))) with 0 by lia.
    done.
  - intros Hst.
    rewrite (recalc_stable_insert today df i _ Hst (int_fees_get_data today w)).
    by eexists.
Qed.

End dialog_facts.

(** ** Search *)

Lemma app_nil_l_string (b : string) : "" +:+ b = b.
Proof. reflexivity. Qed.

Lemma app_cons_string (c : ascii) (a b : string) :
  String c a +:+ b = String c (a +:+ b).
Proof. reflexivity. Qed.

Lemma is_prefix_spec (p s : string) :
  is_prefix p s = true ↔ ∃ b, s = p +:+ b.
Proof.
  revert s. induction p as [|c p IH]; intros s; simpl.
  - split; [intros _; by exists s|done].
  - destruct s as [|d s].
    + split; [done|]. intros [b Hb]. rewrite app_cons_string in Hb. discriminate.
    + rewrite andb_true_iff, bool_decide_eq_true, IH. split.
      * intros [-> [b ->]]. by exists b.
      * intros [b Hb]. rewrite app_cons_string in Hb.
        injection Hb as -> ->. eauto.
Qed.

(** [is_substring] is containment: the text is the keyword with
    something before it and something after it. *)
Lemma is_substring_spec (p s : string) :
  is_substring p s = true ↔ ∃ a b, s = a +:+ p +:+ b.
Proof.
  induction s as [|d s IH].
  - simpl. rewrite orb_false_r, is_prefix_spec. split.
    + intros [b Hb]. by exists "", b.
    + intros (a & b & Hab). destruct a as [|c a].
      * by exists b.
      * rewrite app_cons_string in Hab. discriminate.
  - cbn [is_substring]. rewrite orb_true_iff, is_prefix_spec, IH. split.
    + intros [[b Hb]|(a & b & Hab)].
      * by exists "", b.
      * exists (String d a), b. by rewrite app_cons_string, Hab.
    + intros (a & b & Hab). destruct a as [|c a].
      * left. by exists b.
      * right. rewrite app_cons_string in Hab. injection Hab as _ ->. eauto.
Qed.

Lemma filter_is_sublist {A : Type} (f : A → bool) (l : list A) :
  List.filter f l `sublist_of` l.
Proof.
  induction l as [|x l IH]; simpl; [constructor|].
  destruct (f x); by constructor.
Qed.

Lemma select_is_sublist (mask : list bool) (df : table) :
  select mask df `sublist_of` df.
Proof.
  revert mask. induction df as [|r df IH]; intros [|b mask]; simpl;
    try apply sublist_nil_l.
  destruct b; constructor; apply IH.
Qed.

Lemma select_all (mask : list bool) (df : table) :
  length mask = length df → Forall (λ b, b = true) mask →
  select mask df = df.
Proof.
  revert mask. induction df as [|r df IH]; intros [|b mask]; simpl;
    try done.
  intros [= Hlen] Hall. inversion Hall as [|? ? -> Htl]; subst.
  f_equal. by apply IH.
Qed.


Lemma zip_with_andb_true {A : Type} (f : A → bool) (l : list A) :
  zip_with andb (map (λ _, true) l) (map f l) = map f l.
Proof. induction l as [|x l IH]; simpl; [done|]. by rewrite IH. Qed.

Lemma zip_with_andb_map {A : Type} (f g : A → bool) (l : list A) :
  zip_with andb (map f l) (map g l) = map (λ x, f x && g x) l.
Proof. induction l as [|x l IH]; simpl; [done|]. by rewrite IH. Qed.

Section view_facts.
Context `{Library}.

Lemma search_mask_fields keyword r :
  search_mask keyword r
  = existsb (λ s, re_search keyword (str_lower s)) (row_strings r).
Proof.
  unfold search_mask, STRICT_COLUMNS, row_strings. cbn [foldl existsb].
  change (foldl _ _ []) with false.
  repeat match goal with
         | |- context [column_str ?c r] =>
             let v := eval cbv [column_str] in (column_str c r) in
             let v' := eval cbn in v in
             change (column_str c r) with v'
         end.
  rewrite orb_false_r. simpl. by rewrite <- !orb_assoc.
Qed.

Lemma search_mask_plain keyword r :
  plain keyword = true →
  search_mask keyword r = some_field_contains keyword r.
Proof.
  intros Hp. rewrite search_mask_fields. unfold some_field_contains.
  induction (row_strings r) as [|s l IH]; simpl; [done|].
  rewrite IH. f_equal. by destruct (re_search_plain keyword (str_lower s) Hp).
Qed.

Lemma apply_search_at text st name path df :
  selected_name st = Some name →
  files st !! name = Some (path, df) →
  apply_search text st
  = if bool_decide (str_lower (str_strip text) = "")
    then Done (mk_app (files st) (selected_name st) (Some df))
    else if negb (re_valid (str_lower (str_strip text)))
         then Raised "re.error"
         else Done (mk_app (files st) (selected_name st)
                      (Some (List.filter
                               (search_mask (str_lower (str_strip text)))
                               df))).
Proof. intros Hsel Hfile. unfold apply_search. by rewrite Hsel, Hfile. Qed.

(** When the keyword has no character with a meaning in a regular
    expression, search is containment: the view holds, in table order,
    exactly the records one of whose ten fields, as a lowercased string,
    contains the keyword; an empty keyword gives the whole table. *)
Lemma apply_search_plain_keyword text st name path df :
  selected_name st = Some name →
  files st !! name = Some (path, df) →
  (str_lower (str_strip text) = "" →
   apply_search text st = Done (mk_app (files st) (Some name) (Some df)))
  ∧ (str_lower (str_strip text) ≠ "" →
     plain (str_lower (str_strip text)) = true →
     apply_search text st
     = Done (mk_app (files st) (Some name)
               (Some (List.filter
                        (some_field_contains (str_lower (str_strip text)))
                        df)))
     ∧ ∀ r, r ∈ List.filter
                  (some_field_contains (str_lower (str_strip text))) df
            ↔ r ∈ df
              ∧ ∃ s a b, s ∈ row_strings r
                         ∧ str_lower s
                           = a +:+ str_lower (str_strip text) +:+ b).
Proof.
  intros Hsel Hfile. unfold apply_search. rewrite Hsel, Hfile. split.
  - intros Hk. by rewrite (bool_decide_eq_true_2 _ Hk).
  - intros Hk Hp. rewrite (bool_decide_eq_false_2 _ Hk).
    destruct (re_search_plain (str_lower (str_strip text)) "" Hp) as [-> _].
    simpl. split.
    + do 3 f_equal. apply List.filter_ext. intros r.
      by apply search_mask_plain.
    + intros r. rewrite list_elem_of_In, List.filter_In, <- list_elem_of_In.
      unfold some_field_contains. rewrite List.existsb_exists.
      split.
      * intros [Hin (s & Hs & Hsub)]. split; [done|].
        apply is_substring_spec in Hsub as (a & b & Hab).
        exists s, a, b. by rewrite list_elem_of_In.
      * intros [Hin (s & a & b & Hs & Hab)]. split; [done|].
        exists s. rewrite <- list_elem_of_In. split; [done|].
        apply is_substring_spec. eauto.
Qed.

(** C6: the keyword is handed to [str.contains] as a regular expression.
    In the sample store the search text "j.hn" brings up the record of
    John Doe, although none of its ten fields, lowercased, contains the
    text "j.hn", and no record of the table does. *)
Theorem search_treats_keyword_as_pattern :
  apply_search "j.hn" sample_app
  = Done (mk_app (files sample_app) (selected_name sample_app)
            (Some [sample_row]))
  ∧ (∀ s, s ∈ row_strings sample_row →
       is_substring (str_lower "j.hn") (str_lower s) = false)
  ∧ List.filter (some_field_contains (str_lower "j.hn")) three_rows = [].
Proof.
  assert (Hlow : ∀ s, is_ascii s = true → str_lower s = lower s)
    by apply str_lower_ascii.
  assert (Hkey : str_lower (str_strip "j.hn") = "j.hn").
  { rewrite (str_strip_ascii "j.hn" eq_refl).
    change (strip "j.hn") with "j.hn". by rewrite (Hlow "j.hn" eq_refl). }
  split; [|split].
  - assert (Hfile : files sample_app !! "fees.xlsx"
                    = Some ("/data/fees.xlsx", three_rows))
      by (vm_compute; reflexivity).
    rewrite (apply_search_at "j.hn" sample_app _ _ _ eq_refl Hfile), Hkey.
    rewrite bool_decide_eq_false_2 by discriminate.
    destruct (re_search_dotted "j.hn" "" eq_refl eq_refl) as [-> _].
    cbn [negb]. do 3 f_equal.
    unfold three_rows. cbn [List.filter].
    rewrite !search_mask_fields. unfold row_strings. cbn.
    repeat match goal with
           | |- context [str_lower ?s] => rewrite (Hlow s eq_refl)
           end.
    repeat match goal with
           | |- context [re_search ?p ?s] =>
               rewrite (proj2 (re_search_dotted p s eq_refl eq_refl))
           end.
    vm_compute. reflexivity.
  - intros s Hs. rewrite (Hlow "j.hn" eq_refl).
    unfold row_strings in Hs. cbn in Hs.
    repeat (apply elem_of_cons in Hs as [->|Hs];
            [rewrite Hlow by (vm_compute; reflexivity);
             vm_compute; reflexivity|]).
    by apply elem_of_nil in Hs.
  - unfold three_rows, some_field_contains, row_strings. cbn.
    repeat match goal with
           | |- context [str_lower ?s] => rewrite (Hlow s eq_refl)
           end.
    vm_compute. reflexivity.
Qed.

(** X18: Searching for "nan" finds every record with a blank cell: pandas
    reads a blank cell as NaN, and [astype(str)] turns NaN into the text
    "nan". *)
Theorem search_nan_finds_blank_cells st name path df r :
  selected_name st = Some name →
  files st !! name = Some (path, df) →
  r ∈ df →
  TextNaN ∈ [ Name r; Mobile_Number r; Year r; Dept r; Due_Date r;
              Email r; Fee_Paid_On r ] →
  ∃ v, apply_search "nan" st = Done (mk_app (files st) (Some name) (Some v))
       ∧ r ∈ v.
Proof.
  intros Hsel Hfile Hr Hnan. unfold apply_search. rewrite Hsel, Hfile.
  assert (Hnan_low : str_lower "nan" = "nan")
    by (by rewrite (str_lower_ascii "nan" eq_refl)).
  rewrite (str_strip_ascii "nan" eq_refl).
  change (strip "nan") with "nan". rewrite Hnan_low.
  rewrite bool_decide_eq_false_2 by discriminate.
  destruct (re_search_plain "nan" "" eq_refl) as [-> _]. simpl.
  eexists. split; [reflexivity|].
  rewrite list_elem_of_In, List.filter_In, <- list_elem_of_In.
  split; [done|]. rewrite search_mask_plain by reflexivity.
  unfold some_field_contains, row_strings. cbn [existsb].
  repeat (apply elem_of_cons in Hnan as [<-|Hnan];
          [cbn [astype_str_text]; rewrite Hnan_low; simpl;
           rewrite ?orb_true_r; reflexivity|]).
  by apply elem_of_nil in Hnan.
Qed.

(** ** Due-date filter *)


(** The handler computes the filter of the specification, for whatever
    the two widgets hold. *)
Lemma apply_date_filter_eq mon yr st name path df :
  selected_name st = Some name →
  files st !! name = Some (path, df) →
  apply_date_filter mon yr st
  = match to_datetime_column (map Due_Date df) with
    | None => Dialog "Date parse"
    | Some parsed =>
        match month_arg mon with
        | None => Raised "ValueError"
        | Some mo =>
            match year_arg yr with
            | None => Dialog "Year"
            | Some ye =>
                Done (mk_app (files st) (Some name)
                             (Some (filter_by_due_date mo ye parsed df)))
            end
        end
    end.
Proof.
  intros Hsel Hfile. unfold apply_date_filter, month_arg, year_arg.
  rewrite Hsel, Hfile.
  destruct (to_datetime_column (map Due_Date df)) as [parsed|] eqn:Hparsed;
    [|done].
  assert (Hlen : length parsed = length df).
  { rewrite (to_datetime_length _ _ Hparsed). apply length_map. }
  destruct (bool_decide (mon ≠ "All")); [destruct (py_int mon) as [m|]|];
    [| done |];
    (destruct (bool_decide (str_strip yr ≠ ""));
     [destruct (py_int (str_strip yr)) as [y|]|]; [| done |]);
    do 3 f_equal; unfold filter_by_due_date;
    rewrite ?zip_with_andb_true, ?zip_with_andb_map.
  - f_equal. apply List.map_ext. intros [d|]; reflexivity.
  - f_equal. apply List.map_ext. intros [d|]; simpl; [|reflexivity].
    symmetry. apply andb_true_r.
  - reflexivity.
  - apply select_all; [by rewrite length_map|].
    apply Forall_forall. intros b Hb.
    apply list_elem_of_In, List.in_map_iff in Hb as (p & <- & _). done.
Qed.


(** X16: Search, the date filter and [clear_filters] change the view only:
    the store and the selection stay as they are, and the view holds
    records of the selected table in table order. *)
Theorem views_are_taken_from_the_store st st' :
  (∀ text, apply_search text st = Done st' → is_view_of st st')
  ∧ (∀ mon yr, apply_date_filter mon yr st = Done st' → is_view_of st st')
  ∧ (clear_filters st = Done st' → is_view_of st st').
Proof.
  unfold is_view_of. split; [|split].
  - intros text. unfold apply_search.
    destruct (selected_name st) as [name|] eqn:Hsel; [|done].
    destruct (files st !! name) as [[path df]|] eqn:Hfile; [|done].
    destruct (bool_decide _).
    + intros [= <-]. simpl. repeat split; try done.
      by exists name, path, df, df.
    + destruct (negb _); [done|]. intros [= <-]. simpl.
      repeat split; try done.
      eexists name, path, df, _. repeat split; try done.
      apply filter_is_sublist.
  - intros mon yr.
    destruct (selected_name st) as [name|] eqn:Hsel;
      [|by unfold apply_date_filter; rewrite Hsel].
    destruct (files st !! name) as [[path df]|] eqn:Hfile;
      [|by unfold apply_date_filter; rewrite Hsel, Hfile].
    rewrite (apply_date_filter_eq _ _ _ _ _ _ Hsel Hfile).
    destruct (to_datetime_column (map Due_Date df)) as [parsed|]; [|done].
    destruct (month_arg mon) as [mo|]; [|done].
    destruct (year_arg yr) as [ye|]; [|done].
    intros [= <-]. simpl. repeat split; try done.
    eexists name, path, df, _. repeat split; try done.
    unfold filter_by_due_date.
    destruct mo, ye; try apply select_is_sublist. done.
  - unfold clear_filters.
    destruct (selected_name st) as [name|] eqn:Hsel; [|done].
    destruct (files st !! name) as [[path df]|] eqn:Hfile; [|done].
    intros [= <-]. simpl. repeat split; try done.
    by exists name, path, df, df.
Qed.

Lemma handlers_read_store_and_selection today st st1 :
  files st1 = files st →
  selected_name st1 = selected_name st →
  (∀ text, apply_search text st1 = apply_search text st)
  ∧ (∀ mon yr, apply_date_filter mon yr st1 = apply_date_filter mon yr st)
  ∧ (∀ i, delete_selected today i st1 = delete_selected today i st)
  ∧ (∀ i dlg, edit_selected today i dlg st1 = edit_selected today i dlg st)
  ∧ (∀ dlg, add_row today dlg st1 = add_row today dlg st).
Proof.
  intros Hf Hs.
  unfold apply_search, apply_date_filter, delete_selected, edit_selected,
    add_row.
  rewrite Hf, Hs. done.
Qed.

(** X17: Filters do not stack and row numbers refer to the store: after a
    search or a date filter has narrowed the view, the next search or
    date filter starts from the whole table again, and delete, edit and
    add act on the stored table as if the view had not been narrowed,
    so the row number counts rows of the table, not of the view. *)
Theorem handlers_after_a_filter today st st1 :
  (∃ text, apply_search text st = Done st1)
  ∨ (∃ mon yr, apply_date_filter mon yr st = Done st1) →
  (∀ text, apply_search text st1 = apply_search text st)
  ∧ (∀ mon yr, apply_date_filter mon yr st1 = apply_date_filter mon yr st)
  ∧ (∀ i, delete_selected today i st1 = delete_selected today i st)
  ∧ (∀ i dlg, edit_selected today i dlg st1 = edit_selected today i dlg st)
  ∧ (∀ dlg, add_row today dlg st1 = add_row today dlg st).
Proof.
  intros Hview.
  assert (Hsame : files st1 = files st ∧ selected_name st1 = selected_name st).
  { destruct Hview as [[text Hdone]|(mon & yr & Hdone)].
    - revert Hdone. unfold apply_search.
      destruct (selected_name st); [|done].
      destruct (files st !! s) as [[path df]|]; [|done].
      destruct (bool_decide _); [by intros [= <-]|].
      destruct (negb _); [done|]. by intros [= <-].
    - revert Hdone. unfold apply_date_filter.
      destruct (selected_name st); [|done].
      destruct (files st !! s) as [[path df]|]; [|done].
      destruct (to_datetime_column (map Due_Date df)); [|done].
      destruct (bool_decide (mon ≠ "All")); [destruct (py_int mon)|];
        try done;
        (destruct (bool_decide (str_strip yr ≠ ""));
         [destruct (py_int (str_strip yr))|]; try done; by intros [= <-]). }
  destruct Hsame as [Hf Hs].
  by apply handlers_read_store_and_selection.
Qed.

End view_facts.

(** ** The report *)

Section report_facts.
Context `{Library}.

Lemma build_pdf_unfold (df : table) :
  _build_pdf df
  = pdf_columns
    :: map (λ r, [ display_text (Name r); display_text (Mobile_Number r);
                   display_num (Balance r); display_text (Due_Date r) ]) df.
Proof. reflexivity. Qed.

(** X19: The report table starts with the four column names and then has,
    for each record of the view and in the order of the view, the four
    texts that the table widget shows in those columns. *)
Theorem report_rows_follow_the_view (df : table) :
  _build_pdf df !! 0%nat = Some pdf_columns
  ∧ length (_build_pdf df) = S (length df)
  ∧ ∀ i cells, refresh_table (Some df) !! i = Some cells →
      ∃ name mobile balance due,
        cells !! 0%nat = Some name ∧ cells !! 1%nat = Some mobile
        ∧ cells !! 6%nat = Some balance ∧ cells !! 7%nat = Some due
        ∧ length cells = 10%nat
        ∧ _build_pdf df !! S i = Some [name; mobile; balance; due].
Proof.
  rewrite build_pdf_unfold. split; [done|]. split.
  { simpl. by rewrite length_map. }
  intros i cells Hcells.
  assert (Hrow : ∃ r, df !! i = Some r
                      ∧ cells = map (λ col, column_display col r)
                                    STRICT_COLUMNS).
  { destruct df as [|r0 df]; [done|].
    unfold refresh_table in Hcells. rewrite lookup_map in Hcells.
    destruct ((r0 :: df) !! i) as [r|]; [|done].
    exists r. simpl in Hcells. by injection Hcells as <-. }
  destruct Hrow as (r & Hr & ->).
  eexists _, _, _, _. repeat split; try reflexivity.
  simpl. rewrite lookup_map, Hr. reflexivity.
Qed.

(** Nothing is exported when there is no view or the view has no
    record, whatever file was chosen. *)
Lemma export_pdf_needs_rows path built st :
  current_df_view st = None ∨ current_df_view st = Some [] →
  export_pdf path built st = Dialog "No data".
Proof. unfold export_pdf. by intros [-> | ->]. Qed.

End report_facts.

(** ** Reminders *)

Section reminder_facts.
Context `{Library}.



Lemma has_address_no_email (to : text_cell) :
  has_address to = true → no_email to = false.
Proof. destruct to; simpl; [by rewrite negb_true_iff|done]. Qed.

(** What the loop leaves in the log: every recipient is counted once,
    as sent or as failed; the mails handed to the server are mails of
    recipients with an address, in their order; and all of these when
    every session could be opened. *)
Lemma send_loop_log smtp i recipients log :
  let log' := send_loop smtp i recipients log in
  (sent log' + length (failed log')
   = sent log + length (failed log) + length recipients)%nat
  ∧ ∃ handed,
      calls log' = calls log ++ map mail_of handed
      ∧ handed `sublist_of`
          List.filter (λ r, has_address (Email r)) recipients
      ∧ ((∀ j, connect smtp j = None) →
         handed = List.filter (λ r, has_address (Email r)) recipients).
Proof.
  revert i log. induction recipients as [|r rest IH]; intros i log; simpl.
  { split; [lia|]. exists []. by rewrite app_nil_r. }
  unfold send_one.
  destruct (Email r) as [address|] eqn:Hmail.
  - destruct (no_email (Text address)) eqn:Hno; cbn [has_address negb].
    + rewrite Hno. cbn [negb].
      destruct (IH (S i) (mk_log (sent log)
                  (failed log ++ [("(no email)", "missing email")])
                  (calls log))) as (Hn & Hc).
      simpl in *. rewrite length_app in Hn. simpl in Hn.
      split; [lia|done].
    + rewrite Hno. cbn [negb].
      destruct (connect smtp i) as [e|] eqn:Hconn.
      * destruct (IH (S i) (mk_log (sent log)
                    (failed log ++ [(astype_str_text (Text address), e)])
                    (calls log))) as (Hn & handed & Hc & Hsub & Hall).
        simpl in *. rewrite length_app in Hn. simpl in Hn.
        split; [lia|]. exists handed. split; [done|].
        split; [by constructor|].
        intros Hopen. rewrite Hopen in Hconn. discriminate.
      * assert (Hmail_of : mail_of r = (address, reminder_body r))
          by (unfold mail_of; by rewrite Hmail).
        destruct (sendmail smtp i address (reminder_body r)) as [e|].
        -- destruct (IH (S i) (mk_log (sent log)
                      (failed log ++ [(address, e)])
                      (calls log ++ [(address, reminder_body r)])))
             as (Hn & handed & Hc & Hsub & Hall).
           simpl in *. rewrite length_app in Hn. simpl in Hn.
           split; [lia|]. exists (r :: handed). simpl. rewrite Hmail_of.
           split; [by rewrite Hc, <- app_assoc|].
           split; [by constructor|].
           intros Hopen. by rewrite (Hall Hopen).
        -- destruct (IH (S i) (mk_log (S (sent log)) (failed log)
                      (calls log ++ [(address, reminder_body r)])))
             as (Hn & handed & Hc & Hsub & Hall).
           simpl in *.
           split; [lia|]. exists (r :: handed). simpl. rewrite Hmail_of.
           split; [by rewrite Hc, <- app_assoc|].
           split; [by constructor|].
           intros Hopen. by rewrite (Hall Hopen).
  - cbn [no_email truthy negb orb has_address].
    destruct (bool_decide (str_strip (astype_str_text TextNaN) = ""))
      eqn:Hblank.
    + destruct (IH (S i) (mk_log (sent log)
                  (failed log ++ [("(no email)", "missing email")])
                  (calls log))) as (Hn & Hc).
      simpl in *. rewrite length_app in Hn. simpl in Hn.
      split; [lia|done].
    + destruct (connect smtp i) as [e|].
      * destruct (IH (S i) (mk_log (sent log)
                    (failed log ++ [(astype_str_text TextNaN, e)])
                    (calls log))) as (Hn & Hc).
        simpl in *. rewrite length_app in Hn. simpl in Hn.
        split; [lia|done].
      * destruct (IH (S i) (mk_log (sent log)
                    (failed log ++ [(astype_str_text TextNaN, header_error)])
                    (calls log))) as (Hn & Hc).
        simpl in *. rewrite length_app in Hn. simpl in Hn.
        split; [lia|done].
Qed.

Lemma send_to_all_unfold today choice i smtp st name path df :
  selected_name st = Some name →
  files st !! name = Some (path, df) →
  choice ≠ "Selected row only" →
  send_reminders today (Some choice) i smtp st
  = recompute_then today df (λ df',
      match List.filter has_due df' with
      | [] => Dialog "No recipients"
      | recipients =>
          match smtp with
          | None => Silent
          | Some smtp => Done (send_loop smtp 0 recipients (mk_log 0 [] []))
          end
      end).
Proof.
  intros Hsel Hfile Hch. unfold send_reminders, recompute_then.
  rewrite Hsel, Hfile.
  destruct (_recalculate_business_rules today df) as [df'|]; [|done].
  rewrite (bool_decide_eq_false_2 _ Hch).
  by destruct (List.filter has_due df').
Qed.


(** X20: Every record with a balance is accounted for once: the mails sent
    and the failures add up to the number of records that owe, one
    failure does not stop the rest, and the result box lists at most ten
    failures. *)
Theorem reminders_account_for_every_debtor today choice i smtp st
    name path df log :
  selected_name st = Some name →
  files st !! name = Some (path, df) →
  choice ≠ "Selected row only" →
  send_reminders today (Some choice) i (Some smtp) st = Done log →
  ∃ df', _recalculate_business_rules today df = Some df'
    ∧ (sent log + length (failed log)
       = length (List.filter has_due df'))%nat
    ∧ (length (result_details log) ≤ 10)%nat
    ∧ (length (result_details log) ≤ length (failed log))%nat.
Proof.
  intros Hsel Hfile Hch.
  rewrite (send_to_all_unfold _ _ _ _ _ _ _ _ Hsel Hfile Hch).
  unfold recompute_then.
  destruct (_recalculate_business_rules today df) as [df'|]; [|done].
  destruct (List.filter has_due df') as [|r rs] eqn:Hrec; [done|].
  intros [= <-]. exists df'. split; [done|].
  destruct (send_loop_log smtp 0 (r :: rs) (mk_log 0 [] [])) as (Hn & _).
  simpl in Hn. rewrite Hrec. split; [exact Hn|].
  unfold result_details. rewrite length_map, length_take. lia.
Qed.


(** X22: When recompute finds every record paid up, the amount paid
    reaching the fee, nothing is sent and the connection is not even
    asked for. *)
Theorem no_reminder_when_all_is_paid today choice i smtp st name path df df' :
  selected_name st = Some name →
  files st !! name = Some (path, df) →
  choice ≠ "Selected row only" →
  _recalculate_business_rules today df = Some df' →
  Forall (λ r', int_value (Fee_Amount r') ≤ int_value (Fee_Paid r')
                ∧ in_int64 (int_value (Fee_Amount r')
                            - int_value (Fee_Paid r'))) df' →
  send_reminders today (Some choice) i smtp st = Dialog "No recipients".
Proof.
  intros Hsel Hfile Hch Hdone Hpaid.
  rewrite (send_to_all_unfold _ _ _ _ _ _ _ _ Hsel Hfile Hch).
  unfold recompute_then. rewrite Hdone.
  assert (Hnone : List.filter has_due df' = []).
  { pose proof (recalculate_Forall2 today
        (λ _ r', int_value (Fee_Amount r') ≤ int_value (Fee_Paid r')
                 ∧ in_int64 (int_value (Fee_Amount r')
                             - int_value (Fee_Paid r')) →
                 has_due r' = false) df df' Hdone) as Hrows.
    assert (Hall : Forall (λ r', has_due r' = false) df').
    { apply Forall_forall. intros r' Hr'.
      assert (Hstep : Forall (λ r',
                int_value (Fee_Amount r') ≤ int_value (Fee_Paid r')
                ∧ in_int64 (int_value (Fee_Amount r')
                            - int_value (Fee_Paid r')) →
                has_due r' = false) df').
      { apply (Forall2_right _ df). apply Hrows.
        intros fa fp r Ha Hp; simpl. intros [Hle Hfit].
        unfold has_due; simpl.
        destruct (balance_of_fees fa fp) as (_ & _ & _ & Hmax & _).
        rewrite (Hmax Hfit).
        destruct (Z.ltb_spec 0 (Z.max 0 (fa - fp))); [lia|done]. }
      rewrite Forall_forall in Hstep, Hpaid. apply Hstep; [done|].
      by apply Hpaid. }
    clear -Hall. induction Hall as [|x l Hx _ IH]; simpl; [done|].
    by rewrite Hx. }
  by rewrite Hnone.
Qed.

(** X23: A reminder for the selected row goes out only when that row, as
    recompute leaves it, owes: a paid-up row ends in the "No due" box, a
    row number past the table raises [IndexError], and no row selected
    ends in a warning. *)
Theorem reminder_for_the_selected_row today i smtp st name path df df' :
  selected_name st = Some name →
  files st !! name = Some (path, df) →
  _recalculate_business_rules today df = Some df' →
  send_reminders today (Some "Selected row only") i (Some smtp) st
  = (if decide (i < 0) then Dialog "Select"
     else match df' !! Z.to_nat i with
          | None => Raised "IndexError"
          | Some r' =>
              if decide (Balance r' = Num 0) then Dialog "No due"
              else Done (send_loop smtp 0 [r'] (mk_log 0 [] []))
          end)
  ∧ (Z.of_nat (length df) ≤ i →
     send_reminders today (Some "Selected row only") i (Some smtp) st
     = Raised "IndexError").
Proof.
  intros Hsel Hfile Hdone.
  assert (Hrun : send_reminders today (Some "Selected row only") i
                   (Some smtp) st
    = (if decide (i < 0) then Dialog "Select"
       else match df' !! Z.to_nat i with
            | None => Raised "IndexError"
            | Some r' =>
                if decide (Balance r' = Num 0) then Dialog "No due"
                else Done (send_loop smtp 0 [r'] (mk_log 0 [] []))
            end)).
  { unfold send_reminders, recompute_then. rewrite Hsel, Hfile, Hdone.
    rewrite bool_decide_eq_true_2 by done.
    destruct (decide (i < 0)) as [Hneg|Hpos].
    { by destruct (Z.ltb_spec i 0) as [_|?]; [|lia]. }
    destruct (Z.ltb_spec i 0) as [?|_]; [lia|].
    destruct (df' !! Z.to_nat i) as [r'|] eqn:Hr'; [|done].
    pose proof (recalculate_Forall2 today
        (λ _ r', ∃ b, Balance r' = Num b ∧ 0 ≤ b) df df' Hdone) as Hrows.
    assert (Hbal : ∃ b, Balance r' = Num b ∧ 0 ≤ b).
    { assert (Hall : Forall (λ r', ∃ b, Balance r' = Num b ∧ 0 ≤ b) df').
      { apply (Forall2_right _ df). apply Hrows.
        intros fa fp r _ _. eexists. split; [reflexivity|].
        by destruct (balance_of_fees fa fp) as (Hge & _). }
      by apply (Forall_lookup_1 _ _ _ _ Hall Hr'). }
    destruct Hbal as (b & Hb & Hge). rewrite Hb. simpl.
    destruct (decide (Num b = Num 0)) as [[= ->]|Hnz]; [done|].
    destruct (Z.leb_spec b 0) as [?|_]; [|done].
    destruct Hnz. f_equal. lia. }
  split; [exact Hrun|].
  intros Hpast. rewrite Hrun.
  destruct (decide (i < 0)) as [?|_]; [lia|].
  assert (Hlen : length df' = length df).
  { symmetry. eapply Forall2_length.
    exact (recalculate_recomputed _ _ _ Hdone). }
  rewrite lookup_ge_None_2; [done|]. lia.
Qed.

End reminder_facts.

(** ** Runs on concrete inputs *)

Lemma stable_rows_stable : @stable small_library stable_rows.
Proof. exact (stable_recalc _ _ _ three_rows_recomputed). Qed.

Lemma stable_app_consistent : @consistent small_library (files stable_app).
Proof.
  unfold consistent, stable_app; simpl. apply map_Forall_singleton.
  apply stable_rows_stable.
Qed.

Lemma open_file_strict_header_witness :
  @open_file small_library sample_day "/data/fees.xlsx"
    (Some (mk_frame STRICT_COLUMNS three_rows)) ∅
  = Done {[ "fees.xlsx" := ("/data/fees.xlsx", stable_rows) ]}
  ∧ @open_file small_library sample_day "/data/fees.xlsx"
      (Some (mk_frame swapped_header three_rows)) ∅
    = Dialog "Invalid format".
Proof.
  split.
  - destruct (@open_file_strict_header small_library sample_day
                "/data/fees.xlsx" (mk_frame STRICT_COLUMNS three_rows) ∅)
      as (_ & _ & Hyes & _); [vm_compute; discriminate|].
    rewrite Hyes; [|reflexivity]. vm_compute. reflexivity.
  - destruct (@open_file_strict_header small_library sample_day
                "/data/fees.xlsx" (mk_frame swapped_header three_rows) ∅)
      as (Hno & _); [vm_compute; discriminate|].
    apply Hno. vm_compute. discriminate.
Defined.

Lemma delete_selected_removes_one_witness :
  ∃ df', @delete_selected small_library sample_day 1 sample_app
         = Done (mk_app (<["fees.xlsx" := ("/data/fees.xlsx", df')]>
                           (files sample_app))
                        (Some "fees.xlsx") (Some df'))
         ∧ length df' = 2%nat
         ∧ df' !! 1%nat = stable_rows !! 2%nat.
Proof.
  destruct (@delete_selected_removes_one small_library sample_day
              sample_app "fees.xlsx" "/data/fees.xlsx" three_rows 1)
    as (_ & Hdone & _);
    [vm_compute; reflexivity | vm_compute; reflexivity | simpl; lia |].
  destruct (Hdone [ mk_row (Text "John Doe") (Text "9876543210") (Text "2")
                      (Text "CSE") (Num 5000) (Num 2000) (Num 3000)
                      (Text "2025-03-10") (Text "john@example.com") (Text "");
                    mk_row (Text "Ravi") (Text "9000000002") (Text "1")
                      (Text "EEE") (Num (-5)) (Num 0) (Num 0)
                      (Text "") (Text "ravi@example.com")
                      (Text "2025-03-01") ])
    as (Hrun & Hlen & _); [vm_compute; reflexivity|].
  eexists. split; [exact Hrun|]. split; [exact Hlen|reflexivity].
Defined.

Lemma delete_of_recomputed_witness :
  @_recalculate_business_rules small_library sample_day
    (df_drop 1 stable_rows)
  = Some (df_drop 1 stable_rows).
Proof.
  apply (@delete_of_recomputed small_library sample_day sample_day
           three_rows stable_rows 1).
  vm_compute. reflexivity.
Defined.


(** The example of the specification: due dates 2025-03-10, none and
    2025-04-01; month 3 of 2025 keeps the first record only, the year
    alone keeps the two dated records, and no constraint keeps all. *)
Example date_filter_scenario :
  @apply_date_filter small_library "03" "2025" sample_app
  = Done (mk_app (files sample_app) (Some "fees.xlsx") (Some [sample_row]))
  ∧ @apply_date_filter small_library "All" "2025" sample_app
    = Done (mk_app (files sample_app) (Some "fees.xlsx")
              (Some [sample_row; negative_row]))
  ∧ @apply_date_filter small_library "All" "" sample_app
    = Done (mk_app (files sample_app) (Some "fees.xlsx") (Some three_rows))
  ∧ @apply_date_filter small_library "All" "next" sample_app
    = Dialog "Year".
Proof. repeat split; vm_compute; reflexivity. Qed.

(** Blanks around the search text are dropped before it is used, and a
    keyword of ordinary characters is looked for as it is. *)
Example search_strips_blanks :
  @apply_search small_library " John " sample_app
  = Done (mk_app (files sample_app) (selected_name sample_app)
            (Some [sample_row]))
  ∧ @apply_search small_library "   " sample_app
    = Done (mk_app (files sample_app) (selected_name sample_app)
              (Some three_rows))
  ∧ @apply_search small_library "MINA" sample_app
    = Done (mk_app (files sample_app) (Some "fees.xlsx") (Some [paid_row])).
Proof. repeat split; vm_compute; reflexivity. Qed.

(** The scenarios of the specification: a fully paid record gets Balance
    0, no Due Date and the date of the day; a partly paid one gets its
    balance, no Fee Paid On, and keeps its Due Date; a record paid
    earlier keeps the date it was paid on. *)
Example recompute_scenarios :
  @_recalculate_business_rules small_library sample_day
    [ set_Fee_Paid (Num 5000) sample_row; sample_row; paid_row ]
  = Some
      [ mk_row (Text "John Doe") (Text "9876543210") (Text "2") (Text "CSE")
               (Num 5000) (Num 5000) (Num 0)
               (Text "") (Text "john@example.com") (Text "2025-03-01");
        mk_row (Text "John Doe") (Text "9876543210") (Text "2") (Text "CSE")
               (Num 5000) (Num 2000) (Num 3000)
               (Text "2025-03-10") (Text "john@example.com") (Text "");
        paid_row ].
Proof. vm_compute. reflexivity. Qed.

(** Adding a fully paid record through [add_row]: the stored table ends
    with the record of the dialog, recomputed. *)
Example add_row_scenario :
  @add_row small_library sample_day (Some sample_dialog)
    (mk_app {[ "fees.xlsx" := ("/data/fees.xlsx", []) ]}
            (Some "fees.xlsx") (Some []))
  = let df := [ mk_row (Text "Lena") (Text "9000000004") (Text "2")
                       (Text "MECH") (Num 4000) (Num 4000) (Num 0)
                       (Text "") (Text "lena@example.com")
                       (Text "2025-03-01") ] in
    Done (mk_app {[ "fees.xlsx" := ("/data/fees.xlsx", df) ]}
                 (Some "fees.xlsx") (Some df)).
Proof. vm_compute. reflexivity. Qed.

Lemma add_row_appends_witness :
  @add_row small_library sample_day (Some sample_dialog) stable_app
  = Done (mk_app
            (<["fees.xlsx" :=
                 ("/data/fees.xlsx",
                  stable_rows
                  ++ [@dialog_row small_library sample_day sample_dialog])]>
               (files stable_app))
            (Some "fees.xlsx")
            (Some (stable_rows
                   ++ [@dialog_row small_library sample_day sample_dialog]))).
Proof.
  apply (@add_row_appends small_library sample_day sample_dialog
           stable_app "fees.xlsx" "/data/fees.xlsx" stable_rows);
    [vm_compute; reflexivity | vm_compute; reflexivity
    | apply stable_rows_stable].
Defined.

Lemma edit_selected_replaces_one_witness :
  @edit_selected small_library sample_day 1 (Some sample_dialog) stable_app
  = Done (mk_app
            (<["fees.xlsx" :=
                 ("/data/fees.xlsx",
                  <[1%nat := @dialog_row small_library sample_day
                               sample_dialog]> stable_rows)]>
               (files stable_app))
            (Some "fees.xlsx")
            (Some (<[1%nat := @dialog_row small_library sample_day
                                sample_dialog]> stable_rows))).
Proof.
  destruct (@edit_selected_replaces_one small_library sample_day
              stable_app "fees.xlsx" "/data/fees.xlsx" stable_rows 1
              sample_dialog)
    as (_ & _ & Hstable);
    [vm_compute; reflexivity | vm_compute; reflexivity
    | vm_compute; lia |].
  apply Hstable, stable_rows_stable.
Defined.

Lemma save_current_keeps_memory_witness :
  @save_current small_library sample_day true stable_app = Done stable_app
  ∧ @save_current small_library sample_day false stable_app
    = Dialog "Error".
Proof.
  apply (@save_current_keeps_memory small_library sample_day stable_app
           "fees.xlsx" "/data/fees.xlsx" stable_rows);
    [vm_compute; reflexivity | vm_compute; reflexivity
    | apply stable_rows_stable].
Defined.

Lemma handlers_keep_the_store_consistent_witness :
  ∃ st', @delete_selected small_library sample_day 1 stable_app = Done st'
         ∧ @consistent small_library (files st').
Proof.
  destruct (@handlers_keep_the_store_consistent small_library sample_day
              stable_app stable_app_consistent)
    as (_ & _ & _ & _ & Hdel & _).
  eexists. split; [vm_compute; reflexivity|].
  eapply (Hdel 1). vm_compute. reflexivity.
Defined.

Lemma edit_of_paid_record_stamps_today_witness :
  ∃ st' df' r',
    @edit_selected small_library sample_day 0 (Some sample_dialog)
      sample_app = Done st'
    ∧ files st' !! "fees.xlsx" = Some ("/data/fees.xlsx", df')
    ∧ df' !! 0%nat = Some r'
    ∧ Balance r' = Num 0
    ∧ Due_Date r' = Text ""
    ∧ Fee_Paid_On r' = Text "2025-03-01".
Proof.
  destruct (@edit_of_paid_record_stamps_today small_library sample_day
              sample_app "fees.xlsx" "/data/fees.xlsx" three_rows 0
              sample_dialog)
    as (Hedit & _);
    [vm_compute; reflexivity | vm_compute; reflexivity
    | vm_compute; lia | vm_compute; discriminate |].
  assert (Hrun : ∃ st', @edit_selected small_library sample_day 0
                          (Some sample_dialog) sample_app = Done st')
    by (eexists; vm_compute; reflexivity).
  destruct Hrun as [st' Hrun].
  destruct (Hedit st' Hrun) as (df' & r' & Hfile & Hat & Hbal & Hdue & Hpaid).
  exists st', df', r'. repeat split; assumption.
Defined.

Lemma handlers_after_a_filter_witness :
  @delete_selected small_library sample_day 0
    (mk_app (files sample_app) (Some "fees.xlsx") (Some [paid_row]))
  = @delete_selected small_library sample_day 0 sample_app.
Proof.
  destruct (@handlers_after_a_filter small_library sample_day sample_app
              (mk_app (files sample_app) (Some "fees.xlsx") (Some [paid_row])))
    as (_ & _ & Hdel & _).
  - left. exists "MINA". vm_compute. reflexivity.
  - apply Hdel.
Defined.

Lemma search_nan_finds_blank_cells_witness :
  ∃ v, @apply_search small_library "nan" reminder_app
       = Done (mk_app (files reminder_app) (Some "fees.xlsx") (Some v))
       ∧ nan_mail_row ∈ v.
Proof.
  apply (@search_nan_finds_blank_cells small_library reminder_app
           "fees.xlsx" "/data/fees.xlsx" reminder_rows nan_mail_row);
    [vm_compute; reflexivity | vm_compute; reflexivity | | ].
  - unfold reminder_rows. do 3 apply list_elem_of_further.
    apply list_elem_of_here.
  - simpl. do 5 apply list_elem_of_further. apply list_elem_of_here.
Defined.

Lemma reminders_account_for_every_debtor_witness :
  ∃ log, @send_reminders small_library sample_day (Some "All with dues")
           (-1) (Some sample_smtp) reminder_app = Done log
         ∧ sent log = 1%nat
         ∧ length (failed log) = 2%nat.
Proof.
  assert (Hrun : ∃ log, @send_reminders small_library sample_day
                          (Some "All with dues") (-1) (Some sample_smtp)
                          reminder_app = Done log
                        ∧ sent log = 1%nat)
    by (eexists; split; vm_compute; reflexivity).
  destruct Hrun as (log & Hrun & Hsent).
  destruct (@reminders_account_for_every_debtor small_library sample_day
              "All with dues" (-1) sample_smtp reminder_app "fees.xlsx"
              "/data/fees.xlsx" reminder_rows log)
    as (df' & Hdone & Hsum & _);
    [vm_compute; reflexivity | vm_compute; reflexivity
    | vm_compute; discriminate | exact Hrun |].
  exists log. split; [exact Hrun|]. split; [exact Hsent|].
  assert (df' = [ mk_row (Text "John Doe") (Text "9876543210") (Text "2")
                    (Text "CSE") (Num 5000) (Num 2000) (Num 3000)
                    (Text "2025-03-10") (Text "john@example.com") (Text "");
                  blank_mail_row; paid_row; nan_mail_row ]) as ->.
  { vm_compute in Hdone. by injection Hdone as <-. }
  rewrite Hsent in Hsum.
  set (debtors := length (List.filter _ _)) in Hsum.
  vm_compute in debtors. subst debtors. lia.
Defined.


(** The run of the loop on the sample records: one mail goes out, the
    blank address and the NaN address are listed as failures, and the
    server has seen one mail only. *)
Example reminder_scenario :
  ∃ log, @send_reminders small_library sample_day (Some "All with dues")
           (-1) (Some sample_smtp) reminder_app = Done log
         ∧ sent log = 1%nat
         ∧ map fst (failed log) = ["(no email)"; "nan"]
         ∧ map fst (calls log) = ["john@example.com"]
         ∧ result_info log = "Sent: 1, Failed: 2".
Proof. eexists. repeat split; vm_compute; reflexivity. Qed.

Lemma no_reminder_when_all_is_paid_witness :
  @send_reminders small_library sample_day (Some "All with dues") 0
    (Some sample_smtp)
    (mk_app {[ "fees.xlsx" := ("/data/fees.xlsx", [paid_row; nan_paid_row]) ]}
            (Some "fees.xlsx") None)
  = Dialog "No recipients".
Proof.
  apply (@no_reminder_when_all_is_paid small_library sample_day
           "All with dues" 0 (Some sample_smtp) _ "fees.xlsx"
           "/data/fees.xlsx" [paid_row; nan_paid_row]
           [paid_row; set_Due_Date (Text "") nan_paid_row]);
    [vm_compute; reflexivity | vm_compute; reflexivity
    | vm_compute; discriminate | vm_compute; reflexivity |].
  repeat constructor; vm_compute; try discriminate.
Defined.

Lemma reminder_for_the_selected_row_witness :
  @send_reminders small_library sample_day (Some "Selected row only") 2
    (Some sample_smtp) reminder_app
  = Dialog "No due".
Proof.
  destruct (@reminder_for_the_selected_row small_library sample_day 2
              sample_smtp reminder_app "fees.xlsx" "/data/fees.xlsx"
              reminder_rows
              [ mk_row (Text "John Doe") (Text "9876543210") (Text "2")
                  (Text "CSE") (Num 5000) (Num 2000) (Num 3000)
                  (Text "2025-03-10") (Text "john@example.com") (Text "");
                blank_mail_row; paid_row; nan_mail_row ])
    as [Hrun _];
    [vm_compute; reflexivity | vm_compute; reflexivity
    | vm_compute; reflexivity |].
  rewrite Hrun. vm_compute. reflexivity.
Defined.
